(** * Discord-scraper: frontier tracking, pagination and catch-up

    A shallow embedding of [src/data.py] (converters, stores and the
    [DataManager]) and of [src/discord_scraper.py] (the [Scraper] driver),
    followed by the properties of the natural-language specification.

    Conventions of the embedding:
    - Python dictionaries that are used as JSON documents (converted
      messages, frontiers, MongoDB documents) are insertion-ordered
      association lists of [pyval]; dictionaries keyed by a channel
      identifier ([BasicStore.frontier], [DataManager.rescan_interval]) are
      [gmap Z _].
    - Code that can raise returns an [outcome]; methods that touch the store,
      the converter's [authors] set or the clock live in the monad [M], which
      keeps the state reached when an exception is raised.
    - [time.time()] is a float; it is read here as the rational number it
      denotes, taken from a clock oracle.
    - Loops that need not terminate take fuel and return [None] when the
      fuel runs out. *)

From Stdlib Require Import ZArith QArith Qround Lia Lqa.
From stdpp Require Import gmap strings list.

Set Warnings "-register-all".

Local Open Scope string_scope.
Local Open Scope Z_scope.

(** ** Python values *)

Inductive pyval :=
| PNone
| PBool (b : bool)
| PInt (z : Z)
| PStr (s : string)
| PList (l : list pyval)
| PDict (d : list (string * pyval)).

Abbreviation dict := (list (string * pyval)).

(** Structural equality: MongoDB's equality match. *)
Fixpoint pyval_eqb (a b : pyval) {struct a} : bool :=
  match a, b with
  | PNone, PNone => true
  | PBool x, PBool y => Bool.eqb x y
  | PInt x, PInt y => Z.eqb x y
  | PStr x, PStr y => String.eqb x y
  | PList xs, PList ys =>
      (fix go (xs ys : list pyval) : bool :=
         match xs, ys with
         | [], [] => true
         | x :: xs', y :: ys' => pyval_eqb x y && go xs' ys'
         | _, _ => false
         end) xs ys
  | PDict xs, PDict ys =>
      (fix go (xs ys : dict) : bool :=
         match xs, ys with
         | [], [] => true
         | (k, x) :: xs', (k', y) :: ys' =>
             String.eqb k k' && pyval_eqb x y && go xs' ys'
         | _, _ => false
         end) xs ys
  | _, _ => false
  end.

(** Python truthiness ([if x:], [x or y]). *)
Definition truthy (v : pyval) : bool :=
  match v with
  | PNone => false
  | PBool b => b
  | PInt z => negb (z =? 0)
  | PStr s => negb (String.eqb s "")
  | PList l => negb (Nat.eqb (length l) 0)
  | PDict d => negb (Nat.eqb (length d) 0)
  end.

(** [d.get(k)] *)
Fixpoint dict_lookup (d : dict) (k : string) : option pyval :=
  match d with
  | [] => None
  | (k', v) :: d' => if String.eqb k' k then Some v else dict_lookup d' k
  end.

(** [d.get(k, dflt)] *)
Definition dict_get (d : dict) (k : string) (dflt : pyval) : pyval :=
  default dflt (dict_lookup d k).

(** [d[k] = v]: an existing key keeps its position, a new key goes last. *)
Fixpoint dict_set (d : dict) (k : string) (v : pyval) : dict :=
  match d with
  | [] => [(k, v)]
  | (k', v') :: d' =>
      if String.eqb k' k then (k, v) :: d' else (k', v') :: dict_set d' k v
  end.

(** [d.update(d')], that is [for k in d': d[k] = d'[k]]. *)
Definition dict_update (d d' : dict) : dict :=
  fold_left (fun acc k => match dict_lookup d' k with
                          | Some v => dict_set acc k v
                          | None => acc
                          end) (List.map fst d') d.

(** ** Exceptions and the state-and-error monad *)

Inductive exn :=
| IndexError
| KeyError (k : pyval)
| TypeError
| AttributeError
| InvalidOperation
| HTTPException.

Inductive outcome (A : Type) :=
| Ok (a : A)
| Raise (e : exn).
Arguments Ok {A} a.
Arguments Raise {A} e.

Definition is_ok {A} (o : outcome A) : bool :=
  match o with Ok _ => true | Raise _ => false end.

(** [v[k]] on a value. *)
Definition subscript (v : pyval) (k : string) : outcome pyval :=
  match v with
  | PDict d =>
      match dict_lookup d k with
      | Some x => Ok x
      | None => Raise (KeyError (PStr k))
      end
  | _ => Raise TypeError
  end.

(** The integer a value stands for in arithmetic ([bool] is an [int]). *)
Definition as_number (v : pyval) : outcome Z :=
  match v with
  | PInt z => Ok z
  | PBool b => Ok (if b then 1 else 0)
  | _ => Raise TypeError
  end.

(** Python's [==]: numbers compare by value, other values by structure. *)
Definition py_eq (a b : pyval) : bool :=
  match as_number a, as_number b with
  | Ok x, Ok y => x =? y
  | _, _ => pyval_eqb a b
  end.

Definition obind {A B} (o : outcome A) (f : A -> outcome B) : outcome B :=
  match o with
  | Ok a => f a
  | Raise e => Raise e
  end.

(** A list comprehension whose element expression can raise. *)
Fixpoint traverse {A B} (f : A -> outcome B) (l : list A) : outcome (list B) :=
  match l with
  | [] => Ok []
  | x :: l' =>
      obind (f x) (fun y => obind (traverse f l') (fun ys => Ok (y :: ys)))
  end.

(** A dictionary whose keys are values ([{x["k"]: x for x in ...}]), in
    insertion order. Keys are compared with [==], so [True] and [1] are one
    key; lists and dictionaries cannot be keys. *)
Definition hashable (v : pyval) : bool :=
  match v with
  | PList _ | PDict _ => false
  | _ => true
  end.

Fixpoint keyed_lookup {V} (d : list (pyval * V)) (k : pyval) : option V :=
  match d with
  | [] => None
  | (k', v) :: d' => if py_eq k' k then Some v else keyed_lookup d' k
  end.

(** [d[k] = v]: an equal key keeps its position and its first spelling. *)
Fixpoint keyed_set {V} (d : list (pyval * V)) (k : pyval) (v : V)
  : list (pyval * V) :=
  match d with
  | [] => [(k, v)]
  | (k', v') :: d' =>
      if py_eq k' k then (k', v) :: d' else (k', v') :: keyed_set d' k v
  end.

Module Monad.

Definition M (St A : Type) : Type := St -> outcome A * St.

Definition ret {St A} (a : A) : M St A := fun st => (Ok a, st).

Definition raise {St A} (e : exn) : M St A := fun st => (Raise e, st).

Definition bind {St A B} (c : M St A) (k : A -> M St B) : M St B :=
  fun st =>
    match c st with
    | (Ok a, st') => k a st'
    | (Raise e, st') => (Raise e, st')
    end.

Definition gets {St A} (f : St -> A) : M St A := fun st => (Ok (f st), st).

Definition modify {St} (f : St -> St) : M St unit :=
  fun st => (Ok tt, f st).

Definition lift {St A} (o : outcome A) : M St A := fun st => (o, st).

(** A list comprehension whose element expression runs in the monad. *)
Fixpoint mapM {St A B} (f : A -> M St B) (l : list A) : M St (list B) :=
  match l with
  | [] => ret []
  | x :: l' =>
      bind (f x) (fun y => bind (mapM f l') (fun ys => ret (y :: ys)))
  end.

End Monad.
Import Monad.

Notation "'let*' x ':=' c 'in' k" := (bind c (fun x => k))
  (at level 10, x name, c at level 200, k at level 200).

(** ** Discord objects (the fields the program reads) *)

Inductive MessageType :=
| default_type
| reply
| pins_add
| channel_follow_add
| thread_created
| thread_starter_message.

Definition MessageType_eqb (a b : MessageType) : bool :=
  match a, b with
  | default_type, default_type
  | reply, reply
  | pins_add, pins_add
  | channel_follow_add, channel_follow_add
  | thread_created, thread_created
  | thread_starter_message, thread_starter_message => true
  | _, _ => false
  end.

(** [str(message.type)] *)
Definition MessageType_str (t : MessageType) : string :=
  match t with
  | default_type => "MessageType.default"
  | reply => "MessageType.reply"
  | pins_add => "MessageType.pins_add"
  | channel_follow_add => "MessageType.channel_follow_add"
  | thread_created => "MessageType.thread_created"
  | thread_starter_message => "MessageType.thread_starter_message"
  end.

(** [message.reference]: the library's [MessageReference]. *)
Record MessageReference := {
  ref_message_id : option Z;
  ref_channel_id : Z;
  ref_guild_id : option Z
}.

(** [MessageReference.to_dict()] of the client library: [message_id] and
    [guild_id] are present only when they are not [None]. *)
Definition reference_to_dict (r : MessageReference) : dict :=
  let d0 := match ref_message_id r with
            | Some i => [("message_id", PInt i)]
            | None => []
            end in
  let d1 := dict_set d0 "channel_id" (PInt (ref_channel_id r)) in
  match ref_guild_id r with
  | Some g => dict_set d1 "guild_id" (PInt g)
  | None => d1
  end.

(** The attributes of a [Message] that the converters read. Attachments and
    embeds are kept as the dictionaries their [to_dict()] returns. *)
Record MessageData := {
  id : Z;
  channel_id : Z;
  channel_type : string;
  type : MessageType;
  content : string;
  created_at : Z;
  edited_at : option Z;
  attachments : list pyval;
  embeds : list pyval;
  author_id : Z;
  reference : option MessageReference
}.

(** A [Thread]. [thread.history()] is an asynchronous iterator over the
    network: it delivers [t_history] and then, when [t_history_error] is
    set, raises. *)
Record Thread := {
  t_id : Z;
  t_name : string;
  t_created_at : Z;
  t_message_count : Z;
  t_owner_id : Z;
  t_history : list MessageData;
  t_history_error : option exn
}.

(** A [Message] as [DataManager] sees it: its attributes,
    [message.flags.has_thread] and the value of
    [message.channel.get_thread(message.id)]. *)
Record Message := {
  data : MessageData;
  has_thread : bool;
  get_thread : option Thread
}.

Definition opt_int (o : option Z) : pyval :=
  match o with
  | Some z => PInt z
  | None => PNone
  end.

(** ** Converters *)

(** The interface [MessageConverter.convert_message(message, thread)]. The
    only state of a converter is its [authors] set. *)
Definition MessageConverter : Type :=
  MessageData -> option Thread -> M (gset Z) pyval.

(** The dictionary literal under ["thread"], given the converted history. *)
Definition thread_obj (t : Thread) (messages : list pyval) : pyval :=
  PDict [("id", PInt (t_id t));
         ("name", PStr (t_name t));
         ("created_timestamp", PInt (t_created_at t));
         ("message_count", PInt (t_message_count t));
         ("owner_id", PInt (t_owner_id t));
         ("messages", PList messages)].

(** [[(await self.convert_message(x)) async for x in thread.history()]]:
    the messages delivered are converted one by one, then the iterator
    raises if the fetch failed. *)
Definition convert_history (conv : MessageData -> M (gset Z) pyval)
    (t : Thread) : M (gset Z) (list pyval) :=
  let* ms := mapM conv (t_history t) in
  match t_history_error t with
  | Some e => raise e
  | None => ret ms
  end.

Module SimpleMessageConverter.

Definition message_obj (message : MessageData) : dict :=
  [("channel_id", PInt (channel_id message));
   ("channel_type", PStr (channel_type message));
   ("message_id", PInt (id message));
   ("message_content", PStr (content message));
   ("timestamp", PInt (created_at message));
   ("edited_timestamp", opt_int (edited_at message));
   ("attachments", PList (attachments message));
   ("embeds", PList (embeds message));
   ("author_id", PInt (author_id message));
   ("reply_to", PNone);
   ("thread", PNone);
   ("processed", PBool false)].

Definition with_reference (message : MessageData) (obj : dict) : dict :=
  match reference message with
  | Some r => dict_set obj "reply_to" (PDict (reference_to_dict r))
  | None => obj
  end.

(** The call [self.convert_message(x)] inside the thread comprehension:
    [thread] is [None] there. *)
Definition convert_nested (message : MessageData) : M (gset Z) pyval :=
  let obj := with_reference message (message_obj message) in
  let* _ := modify (fun authors => {[author_id message]} ∪ authors) in
  ret (PDict obj).

Definition convert_message : MessageConverter :=
  fun message thread =>
    let obj := with_reference message (message_obj message) in
    let* obj' :=
      match thread with
      | Some t =>
          let* ms := convert_history convert_nested t in
          ret (dict_set obj "thread" (thread_obj t ms))
      | None => ret obj
      end in
    let* _ := modify (fun authors => {[author_id message]} ∪ authors) in
    ret (PDict obj').

End SimpleMessageConverter.

Module MongoMessageConverter.

Definition message_obj (message : MessageData) : dict :=
  [("channel_id", PInt (channel_id message));
   ("channel_type", PStr (channel_type message));
   ("message_id", PInt (id message));
   ("message_type", PStr (MessageType_str (type message)));
   ("timestamp", PInt (created_at message));
   ("edited_timestamp", opt_int (edited_at message));
   ("attachments", PList (attachments message));
   ("embeds", PList (embeds message));
   ("author_id", PInt (author_id message));
   ("reply_to", PNone);
   ("thread", PNone)].

Definition with_reference (message : MessageData) (obj : dict) : dict :=
  match reference message with
  | Some r => dict_set obj "reply_to" (PDict (reference_to_dict r))
  | None => obj
  end.

Definition with_edited (message : MessageData) (obj : dict) : dict :=
  match edited_at message with
  | Some _ => dict_set obj "edited_content" (PStr (content message))
  | None => obj
  end.

(** The update document that is returned: [$set] carries the converted
    message, [$setOnInsert] the fields written only on creation. *)
Definition update_document (message : MessageData) (obj : dict) : dict :=
  [("$set", PDict obj);
   ("$setOnInsert",
     PDict [("message_content", PStr (content message));
            ("processed", PBool false)])].

Definition updater (message : MessageData) (obj : dict) : pyval :=
  PDict (update_document message obj).

Definition convert_nested (message : MessageData) : M (gset Z) pyval :=
  let obj :=
    with_edited message (with_reference message (message_obj message)) in
  let* _ := modify (fun authors => {[author_id message]} ∪ authors) in
  ret (updater message obj).

Definition convert_message : MessageConverter :=
  fun message thread =>
    let obj :=
      with_edited message (with_reference message (message_obj message)) in
    let* obj' :=
      match thread with
      | Some t =>
          let* ms := convert_history convert_nested t in
          ret (dict_set obj "thread" (thread_obj t ms))
      | None => ret obj
      end in
    let* _ := modify (fun authors => {[author_id message]} ∪ authors) in
    ret (updater message obj').

End MongoMessageConverter.

(** ** Stores *)

(** The abstract base class [DataStore]. Reads are functions of the store;
    writes return the new store, together with the exception when one is
    raised part-way. [get_frontiers] gives the items of the dictionary it
    returns, and can raise while building it. *)
Class DataStore (S : Type) := {
  get_frontiers : S -> outcome (list (pyval * dict));
  get_frontier : Z -> S -> dict;
  update_frontier : Z -> Z -> S -> S;
  save_message : pyval -> M S unit;
  save_messages : list pyval -> M S unit;
  set_frontier : Z -> dict -> S -> S;
  message_exists : Z -> S -> outcome bool
}.

(** *** MongoDB collections

    The part of the database driver that [MongoStore] uses: equality
    filters on one field, [find_one], and [update_one] / [UpdateOne] with
    [upsert=True] and the operators [$set], [$setOnInsert] and [$addToSet].
    The server-generated [_id] field is left out. *)
Module Mongo.

Abbreviation collection := (list dict).

(** The filter [{key: v}]. *)
Definition doc_matches (key : string) (v : pyval) (d : dict) : bool :=
  match dict_lookup d key with
  | Some x => pyval_eqb x v
  | None => false
  end.

Definition find_one (key : string) (v : pyval) (c : collection)
  : option dict :=
  List.find (doc_matches key v) c.

(** [$addToSet: {field: v}]: append [v] to the array unless it is there.
    The server rejects the operator on a field that is not an array; no
    update of [MongoStore] writes such a field, and the document is left
    alone here. *)
Definition add_to_set (d : dict) (field : string) (v : pyval) : dict :=
  match dict_lookup d field with
  | None => dict_set d field (PList [v])
  | Some (PList l) =>
      if existsb (fun x => pyval_eqb x v) l then d
      else dict_set d field (PList (l ++ [v]))
  | Some _ => d
  end.

Definition operator (upd : dict) (op : string) : dict :=
  match dict_lookup upd op with
  | Some (PDict fields) => fields
  | _ => []
  end.

(** Apply the update document [upd] to [d]; [inserting] says whether [d]
    is the document an upsert has just created. *)
Definition apply_update (upd : dict) (inserting : bool) (d : dict) : dict :=
  let d1 := dict_update d (operator upd "$set") in
  let d2 := if inserting then dict_update d1 (operator upd "$setOnInsert")
            else d1 in
  fold_left (fun acc kv => add_to_set acc (fst kv) (snd kv))
            (operator upd "$addToSet") d2.

(** [update_one({key: v}, upd, upsert=True)]: the first matching document
    is updated; when none matches, the document made of the filter and
    the update is inserted. *)
Fixpoint update_one (key : string) (v : pyval) (upd : dict)
    (c : collection) : collection :=
  match c with
  | [] => [apply_update upd true [(key, v)]]
  | d :: c' =>
      if doc_matches key v d then apply_update upd false d :: c'
      else d :: update_one key v upd c'
  end.

Record UpdateOne := {
  uo_key : string;
  uo_value : pyval;
  uo_update : dict
}.

(** [bulk_write(requests)] applies the requests in order; the driver
    refuses an empty list of requests. *)
Definition bulk_write (requests : list UpdateOne) (c : collection)
  : outcome unit * collection :=
  match requests with
  | [] => (Raise InvalidOperation, c)
  | _ =>
      (Ok tt,
       fold_left
         (fun acc r => update_one (uo_key r) (uo_value r) (uo_update r) acc)
         requests c)
  end.

End Mongo.

Module MongoStore.

Record t := {
  messages : Mongo.collection;
  frontiers : Mongo.collection
}.

(** [__init__]: empty collections. The unique index on [message_id] is
    the invariant [unique_index] below. *)
Definition init : t := {| messages := []; frontiers := [] |}.

Definition on_messages (f : Mongo.collection -> outcome unit * Mongo.collection)
  : M t unit :=
  fun s =>
    let '(r, c) := f (messages s) in
    (r, {| messages := c; frontiers := frontiers s |}).

(** The first comprehension of [save_messages]. *)
Definition upsert_request (message : pyval) : outcome Mongo.UpdateOne :=
  obind (subscript message "$set") (fun set_ =>
  obind (subscript set_ "message_id") (fun mid =>
  match message with
  | PDict upd =>
      Ok {| Mongo.uo_key := "message_id"; Mongo.uo_value := mid;
            Mongo.uo_update := upd |}
  | _ => Raise TypeError
  end)).

(** The condition [if message["$set"]["reply_to"]]. *)
Definition has_reply (message : pyval) : outcome bool :=
  obind (subscript message "$set") (fun set_ =>
  obind (subscript set_ "reply_to") (fun r => Ok (truthy r))).

(** One element of the [replies] comprehension. *)
Definition reply_request (message : pyval) : outcome Mongo.UpdateOne :=
  obind (subscript message "$set") (fun set_ =>
  obind (subscript set_ "reply_to") (fun r =>
  obind (subscript r "message_id") (fun parent =>
  obind (subscript set_ "message_id") (fun mid =>
  Ok {| Mongo.uo_key := "message_id"; Mongo.uo_value := parent;
        Mongo.uo_update :=
          [("$addToSet", PDict [("replies", mid)])] |})))).

(** The [replies] comprehension with its filter, element by element. *)
Fixpoint reply_requests (mongo_updater : list pyval)
  : outcome (list Mongo.UpdateOne) :=
  match mongo_updater with
  | [] => Ok []
  | message :: rest =>
      obind (has_reply message) (fun b =>
      if b then
        obind (reply_request message) (fun r =>
        obind (reply_requests rest) (fun rs => Ok (r :: rs)))
      else reply_requests rest)
  end.

Definition save_messages (mongo_updater : list pyval) : M t unit :=
  let* requests := lift (traverse upsert_request mongo_updater) in
  let* _ := on_messages (Mongo.bulk_write requests) in
  let* replies := lift (reply_requests mongo_updater) in
  match replies with
  | [] => ret tt
  | _ => on_messages (Mongo.bulk_write replies)
  end.

Definition save_message (mongo_updater : pyval) : M t unit :=
  save_messages [mongo_updater].

Definition message_exists (message_id : Z) (s : t) : outcome bool :=
  Ok (bool_decide
        (Mongo.find_one "message_id" (PInt message_id) (messages s) <> None)).

(** [find_one(...) or {}] *)
Definition get_frontier (channel_id : Z) (s : t) : dict :=
  match Mongo.find_one "channel_id" (PInt channel_id) (frontiers s) with
  | Some d => if truthy (PDict d) then d else []
  | None => []
  end.

(** [{x["channel_id"]: x for x in self.frontiers.find()}]: a document
    without the field raises [KeyError] and a value that cannot be hashed
    [TypeError]; of two documents with equal keys the later one stays. *)
Definition get_frontiers (s : t) : outcome (list (pyval * dict)) :=
  fold_left (fun acc x =>
               obind acc (fun fs =>
               obind (subscript (PDict x) "channel_id") (fun k =>
               if hashable k then Ok (keyed_set fs k x) else Raise TypeError)))
            (frontiers s) (Ok []).

Definition update_frontier (channel_id new_message_id : Z) (s : t) : t :=
  {| messages := messages s;
     frontiers :=
       Mongo.update_one "channel_id" (PInt channel_id)
         [("$set", PDict [("id", PInt new_message_id)])] (frontiers s) |}.

Definition set_frontier (channel_id : Z) (data : dict) (s : t) : t :=
  {| messages := messages s;
     frontiers :=
       Mongo.update_one "channel_id" (PInt channel_id)
         [("$set", PDict data)] (frontiers s) |}.

End MongoStore.

#[export] Instance MongoStore_DataStore : DataStore MongoStore.t := {
  get_frontiers := MongoStore.get_frontiers;
  get_frontier := MongoStore.get_frontier;
  update_frontier := MongoStore.update_frontier;
  save_message := MongoStore.save_message;
  save_messages := MongoStore.save_messages;
  set_frontier := MongoStore.set_frontier;
  message_exists := MongoStore.message_exists
}.

Module BasicStore.

Record t := {
  messages : list pyval;
  frontier : gmap Z dict
}.

Definition init : t := {| messages := []; frontier := ∅ |}.

Definition save_message (message : pyval) : M t unit :=
  modify (fun s => {| messages := messages s ++ [message];
                      frontier := frontier s |}).

Definition save_messages (msgs : list pyval) : M t unit :=
  modify (fun s => {| messages := messages s ++ msgs;
                      frontier := frontier s |}).

Definition get_frontiers (s : t) : gmap Z dict := frontier s.

Definition get_frontier (channel_id : Z) (s : t) : dict :=
  default [("id", PNone); ("previous_scan_time", PInt 0)]
          (frontier s !! channel_id).

Definition set_frontier (channel_id : Z) (data : dict) (s : t) : t :=
  {| messages := messages s;
     frontier := <[channel_id := data]> (frontier s) |}.

Definition update_frontier (channel_id new_message_id : Z) (s : t) : t :=
  {| messages := messages s;
     frontier :=
       <[channel_id :=
           dict_set (get_frontier channel_id s) "id" (PInt new_message_id)]>
         (frontier s) |}.

(** [any(message_data["message_id"] == message_id for ...)]: stops at the
    first match; a record without the key raises. *)
Fixpoint any_message_id (message_id : Z) (msgs : list pyval) : outcome bool :=
  match msgs with
  | [] => Ok false
  | message_data :: rest =>
      obind (subscript message_data "message_id") (fun v =>
      if py_eq v (PInt message_id) then Ok true
      else any_message_id message_id rest)
  end.

Definition message_exists (message_id : Z) (s : t) : outcome bool :=
  any_message_id message_id (messages s).

End BasicStore.

#[export] Instance BasicStore_DataStore : DataStore BasicStore.t := {
  get_frontiers := fun s =>
    Ok ((fun kv => (PInt kv.1, kv.2))
          <$> map_to_list (BasicStore.get_frontiers s));
  get_frontier := BasicStore.get_frontier;
  update_frontier := BasicStore.update_frontier;
  save_message := BasicStore.save_message;
  save_messages := BasicStore.save_messages;
  set_frontier := BasicStore.set_frontier;
  message_exists := BasicStore.message_exists
}.

(** ** The program state *)

(** What the running program mutates: the store, the converter's [authors]
    set, and the number of clock readings taken so far. *)
Record State (S : Type) := {
  store : S;
  authors : gset Z;
  ticks : nat
}.
Arguments store {S} _.
Arguments authors {S} _.
Arguments ticks {S} _.

(** The state after one more reading of the clock. *)
Definition tick {S} (st : State S) : State S :=
  {| store := store st; authors := authors st; ticks := Datatypes.S (ticks st) |}.

Definition on_store {S A} (c : M S A) : M (State S) A :=
  fun st =>
    let '(r, s) := c (store st) in
    (r, {| store := s; authors := authors st; ticks := ticks st |}).

Definition on_authors {S A} (c : M (gset Z) A) : M (State S) A :=
  fun st =>
    let '(r, a) := c (authors st) in
    (r, {| store := store st; authors := a; ticks := ticks st |}).

Definition Qlt_bool (x y : Q) : bool := negb (Qle_bool y x).

(** [int(x)] on a float: truncation towards zero. *)
Definition py_int (x : Q) : Z := Z.quot (Qnum x) (Z.pos (Qden x)).

Definition is_thread_created (message : Message) : bool :=
  MessageType_eqb (type (data message)) thread_created.

(** ** DataManager *)

Record DataManager := {
  channels : list Z;
  rescan_interval : gmap Z Z
}.

Module DataManager.
Section WithStore.

Context {S : Type} `{DataStore S}.

(** The [converter] attribute and the clock behind [time.time()]: its
    [n]-th reading is [clock n]. *)
Variable converter : MessageConverter.
Variable clock : nat -> Q.

(** [__init__(target_channels, store, converter)] *)
Definition init (target_channels : list Z) : DataManager :=
  {| channels := target_channels;
     rescan_interval :=
       list_to_map (List.map (fun channel => (channel, 60)) target_channels) |}.

Definition time_time : M (State S) Q :=
  fun st => (Ok (clock (ticks st)), tick st).

Definition get_frontier (channel_id : Z) : M (State S) dict :=
  gets (fun st => get_frontier channel_id (store st)).

(** Returns the identifier wrapped by [DiscordObject(mid)], or [None]. *)
Definition get_frontier_message (channel_id : Z) : M (State S) (option Z) :=
  let* front := get_frontier channel_id in
  let mid := dict_get front "id" PNone in
  if truthy mid then
    let* i := lift (as_number mid) in ret (Some i)
  else ret None.

Definition should_rescan (self : DataManager) (channel_id : Z)
  : M (State S) bool :=
  let* front := get_frontier channel_id in
  let timestamp := dict_get front "previous_scan_time" (PInt 0) in
  let* now := time_time in
  let* interval :=
    lift (match rescan_interval self !! channel_id with
          | Some i => Ok i
          | None => Raise (KeyError (PInt channel_id))
          end) in
  let* ts := lift (as_number timestamp) in
  ret (Qlt_bool (inject_Z ts) (now - inject_Z interval)).

(** [[x for x in self.channels if self.get_frontier_message(x) or
    self.should_rescan(x)]] *)
Fixpoint targets_of (self : DataManager) (l : list Z) : M (State S) (list Z) :=
  match l with
  | [] => ret []
  | x :: l' =>
      let* fm := get_frontier_message x in
      let* keep := match fm with
                   | Some _ => ret true
                   | None => should_rescan self x
                   end in
      let* rest := targets_of self l' in
      ret (if keep then x :: rest else rest)
  end.

Definition get_targets (self : DataManager) : M (State S) (list Z) :=
  targets_of self (channels self).

Definition convert_message (message : Message) : M (State S) pyval :=
  let thread := if has_thread message then get_thread message else None in
  on_authors (converter (data message) thread).

Definition save_message (message : Message) (upd_frontier : bool)
  : M (State S) unit :=
  let* _ :=
    if negb (is_thread_created message) then
      let* converted_message := convert_message message in
      on_store (save_message converted_message)
    else ret tt in
  if upd_frontier then
    on_store (modify (update_frontier (channel_id (data message))
                                      (id (data message))))
  else ret tt.

Definition save_messages (msgs : list Message) (upd_frontier : bool)
  : M (State S) unit :=
  let* converted_messages :=
    mapM convert_message
         (List.filter (fun message => negb (is_thread_created message)) msgs) in
  let* _ := on_store (save_messages converted_messages) in
  let* last_message :=
    lift (match last msgs with
          | Some m => Ok m
          | None => Raise IndexError
          end) in
  if upd_frontier then
    on_store (modify (update_frontier (channel_id (data last_message))
                                      (id (data last_message))))
  else ret tt.

Definition finish_frontier (channel_id : Z) : M (State S) unit :=
  let* front := get_frontier channel_id in
  let front1 := dict_set front "id" PNone in
  let* now := time_time in
  let front2 := dict_set front1 "previous_scan_time" (PInt (py_int now)) in
  on_store (modify (set_frontier channel_id front2)).

Definition message_exists (message_id : Z) : M (State S) bool :=
  fun st => (message_exists message_id (store st), st).

End WithStore.
End DataManager.

(** ** Scraper *)

(** A text channel of the client: [channel.history] reads [ch_messages],
    which lists the channel's messages oldest first. *)
Record Channel := {
  ch_name : string;
  ch_guild_name : string;
  ch_messages : list Message
}.

(** [channel.history(limit=limit, after=after, oldest_first=True)] *)
Definition history_oldest_first (channel : Channel) (limit : Z)
    (after : option Z) : list Message :=
  take (Z.to_nat limit)
       (List.filter (fun m => match after with
                              | Some a => a <? id (data m)
                              | None => true
                              end) (ch_messages channel)).

(** [channel.history(limit=limit, oldest_first=None)]: without [after] the
    library delivers the most recent messages, newest first. *)
Definition history_newest_first (channel : Channel) (limit : Z)
    : list Message :=
  take (Z.to_nat limit) (reverse (ch_messages channel)).

(** The attributes of [Scraper] that the scraping methods read: the client
    as the channels [get_channel] finds, the [DataManager] and the page
    size. *)
Record Scraper := {
  client : gmap Z Channel;
  data_manager : DataManager;
  limit : Z
}.

Module Scraper.
Section WithStore.

Context {S : Type} `{DataStore S}.
Variable converter : MessageConverter.
Variable clock : nat -> Q.

Definition _process_message (self : Scraper) (message : Message)
    (upd_frontier : bool) : M (State S) unit :=
  DataManager.save_message converter message upd_frontier.

Definition _process_messages (self : Scraper) (msgs : list Message)
    (upd_frontier : bool) : M (State S) unit :=
  DataManager.save_messages converter msgs upd_frontier.

(** An attribute read on [client.get_channel(channel_id)]. *)
Definition the_channel (self : Scraper) (channel_id : Z)
  : M (State S) Channel :=
  lift (match client self !! channel_id with
        | Some c => Ok c
        | None => Raise AttributeError
        end).

Definition _scrape_channel (self : Scraper) (channel_id : Z)
  : M (State S) bool :=
  let* frontier := DataManager.get_frontier_message channel_id in
  let* channel := the_channel self channel_id in
  let msgs := history_oldest_first channel (limit self) frontier in
  let* _ := _process_messages self msgs false in
  let len := Z.of_nat (length msgs) in
  ret ((len =? 0) || negb (len =? limit self)).

(** The [while current_channels:] loop of [scrape_all_channels]; [None]
    when the fuel runs out before the list is empty. *)
Fixpoint scrape_loop (self : Scraper) (fuel : nat)
    (current_channels : list Z) (i : nat) : M (State S) (option unit) :=
  match current_channels with
  | [] => ret (Some tt)
  | _ =>
      match fuel with
      | O => ret None
      | Datatypes.S fuel' =>
          let i := (i mod length current_channels)%nat in
          let* channel_id :=
            lift (match current_channels !! i with
                  | Some c => Ok c
                  | None => Raise IndexError
                  end) in
          let* channel_empty := _scrape_channel self channel_id in
          if channel_empty then
            let* _ := DataManager.finish_frontier clock channel_id in
            scrape_loop self fuel' (delete i current_channels) (i + 1)%nat
          else
            scrape_loop self fuel' current_channels (i + 1)%nat
      end
  end.

Definition scrape_all_channels (self : Scraper) (fuel : nat)
  : M (State S) (option unit) :=
  let* current_channels :=
    DataManager.get_targets clock (data_manager self) in
  scrape_loop self fuel current_channels 0%nat.

(** The [async for] loop of [_scrape_unseen_only] over the messages the
    history delivers: [None] is the [return] inside the loop, [Some l] the
    list collected when the loop runs to its end. *)
Fixpoint collect_unseen (delivered msgs : list Message)
  : M (State S) (option (list Message)) :=
  match delivered with
  | [] => ret (Some msgs)
  | message :: rest =>
      let* known := DataManager.message_exists (id (data message)) in
      if known then ret None
      else collect_unseen rest (msgs ++ [message])
  end.

Definition _scrape_unseen_only (self : Scraper) (channel_id : Z)
  : M (State S) unit :=
  let* channel := the_channel self channel_id in
  let* collected :=
    collect_unseen (history_newest_first channel (limit self)) [] in
  match collected with
  | None => ret tt
  | Some msgs => _process_messages self msgs false
  end.

Fixpoint unseen_in (self : Scraper) (l : list Z) : M (State S) unit :=
  match l with
  | [] => ret tt
  | channel :: l' =>
      let* due :=
        DataManager.should_rescan clock (data_manager self) channel in
      let* _ := if due then ret tt else _scrape_unseen_only self channel in
      unseen_in self l'
  end.

Definition scrape_all_unseen (self : Scraper) : M (State S) unit :=
  unseen_in self (channels (data_manager self)).

(** The [on_message] listener set up by [begin_scraping]. *)
Definition on_message (self : Scraper) (message : Message)
  : M (State S) unit :=
  if bool_decide (channel_id (data message) ∈ channels (data_manager self))
  then _process_message self message false
  else ret tt.

End WithStore.
End Scraper.

(** ** Observations used by the properties *)

(** The number of documents of a collection that match [{key: v}]. *)
Definition count_docs (key : string) (v : pyval) (c : Mongo.collection) : nat :=
  length (List.filter (Mongo.doc_matches key v) c).

(** The unique index on [key] (created for [message_id] by
    [MongoStore.__init__]): no two documents carry the same value. *)
Definition unique_index (key : string) (c : Mongo.collection) : Prop :=
  forall v, (count_docs key v c <= 1)%nat.

(** The number of records of a [BasicStore] whose [message_id] is [i]. *)
Definition count_records (i : Z) (s : BasicStore.t) : nat :=
  length (List.filter
            (fun r => match subscript r "message_id" with
                      | Ok v => py_eq v (PInt i)
                      | Raise _ => false
                      end) (BasicStore.messages s)).

(** The items of a batch that are not structural markers. *)
Definition not_marker (message : Message) : bool :=
  negb (is_thread_created message).

(** [r] is what [converter] returns for [message] when [DataManager] asks
    for its conversion. *)
Definition converts_to (converter : MessageConverter) (message : Message)
    (r : pyval) : Prop :=
  exists a a',
    converter (data message)
              (if has_thread message then get_thread message else None) a
    = (Ok r, a').

(** An update that leaves the filtered field of the documents it touches
    alone, and whose upserted document carries the filter's value. *)
Definition keeps_key (key : string) (v : pyval) (upd : dict) : Prop :=
  (forall d, Mongo.doc_matches key v d = true ->
             dict_lookup (Mongo.apply_update upd false d) key = dict_lookup d key)
  /\ dict_lookup (Mongo.apply_update upd true [(key, v)]) key = Some v.

(** The value both converters store under ["reply_to"]. *)
Definition reply_to_of (message : MessageData) : pyval :=
  match reference message with
  | Some r => PDict (reference_to_dict r)
  | None => PNone
  end.

(** The identifier of the item a message replies to, when it names one. *)
Definition parent_of (message : MessageData) : option Z :=
  r ← reference message; ref_message_id r.

(** The update document of the reply back-reference in
    [MongoStore.save_messages]. *)
Definition add_reply (child : Z) : dict :=
  [("$addToSet", PDict [("replies", PInt child)])].

(** The messages collection after the upsert of [message] itself. *)
Definition upserted (message : MessageData) (obj : dict)
    (c : Mongo.collection) : Mongo.collection :=
  Mongo.update_one "message_id" (PInt (id message))
    (MongoMessageConverter.update_document message obj) c.

(** The stub that the back-reference upserts for an unknown parent. *)
Definition stub (parent child : Z) : dict :=
  [("message_id", PInt parent); ("replies", PList [PInt child])].

(** A converter that does not fail on a message without a thread. *)
Definition plain_ok (converter : MessageConverter) : Prop :=
  forall message a, exists r a', converter message None a = (Ok r, a').

(** The cursor and the time of the last pass as [DataManager] reads them
    from a frontier dictionary. *)
Definition cursor_of (front : dict) : pyval := dict_get front "id" PNone.

Definition previous_scan_time_of (front : dict) : pyval :=
  dict_get front "previous_scan_time" (PInt 0).

(** The default frontier of the specification. *)
Definition default_frontier : dict :=
  [("id", PNone); ("previous_scan_time", PInt 0)].

(** The scan-due predicate in the specification's words:
    [now - previous_scan_time >= rescanInterval]. *)
Definition spec_isScanDue (now : Q) (previous_scan_time interval : Z) : bool :=
  Qle_bool (inject_Z interval) (now - inject_Z previous_scan_time).

(** What the two stores have in common, as far as [DataManager] relies on
    it: saving messages does not touch the frontiers, [update_frontier]
    sets the cursor, and [set_frontier] stores the fields it is given. *)
Class DataStoreLaws (S : Type) `{DataStore S} : Prop := {
  save_messages_frontier : forall l s c,
    get_frontier c (save_messages l s).2 = get_frontier c s;
  save_message_frontier : forall m s c,
    get_frontier c (save_message m s).2 = get_frontier c s;
  update_frontier_cursor : forall c i s,
    dict_lookup (get_frontier c (update_frontier c i s)) "id" = Some (PInt i);
  set_frontier_lookup : forall c d s k v,
    dict_lookup d "channel_id" = dict_lookup (get_frontier c s) "channel_id" ->
    dict_lookup d k = Some v ->
    dict_lookup (get_frontier c (set_frontier c d s)) k = Some v
}.

(** ** Scenarios of the specification *)

Module Scenario.

(** A plain text message [i] of channel [c]. *)
Definition message (c i : Z) : Message :=
  {| data := {| id := i; channel_id := c; channel_type := "text";
                type := default_type; content := "hello";
                created_at := i; edited_at := None; attachments := [];
                embeds := []; author_id := 100; reference := None |};
     has_thread := false;
     get_thread := None |}.

(** The structural marker announcing that a thread was opened. *)
Definition marker (c i : Z) : Message :=
  {| data := {| id := i; channel_id := c; channel_type := "text";
                type := thread_created; content := "thread";
                created_at := i; edited_at := None; attachments := [];
                embeds := []; author_id := 100; reference := None |};
     has_thread := false;
     get_thread := None |}.

(** A message of channel [c] that replies to message [parent] of channel
    [parent_channel]. *)
Definition reply_to (c i parent_channel parent : Z) : Message :=
  {| data := {| id := i; channel_id := c; channel_type := "text";
                type := reply; content := "re";
                created_at := i; edited_at := None; attachments := [];
                embeds := []; author_id := 101;
                reference := Some {| ref_message_id := Some parent;
                                     ref_channel_id := parent_channel;
                                     ref_guild_id := Some 1 |} |};
     has_thread := false;
     get_thread := None |}.

(** A message with a thread whose history cannot be fetched. *)
Definition with_broken_thread (c i : Z) : Message :=
  {| data := data (message c i);
     has_thread := true;
     get_thread := Some {| t_id := i; t_name := "t"; t_created_at := i;
                           t_message_count := 1; t_owner_id := 100;
                           t_history := [];
                           t_history_error := Some HTTPException |} |}.

Definition channel_of (msgs : list Message) : Channel :=
  {| ch_name := "general"; ch_guild_name := "guild"; ch_messages := msgs |}.

Definition scraper (msgs : list Message) (lim : Z) : Scraper :=
  {| client := {[ 1 := channel_of msgs ]};
     data_manager := DataManager.init [1];
     limit := lim |}.

Definition start {S} (s : S) : State S :=
  {| store := s; authors := ∅; ticks := 0 |}.

(** A clock that starts at 1000 and advances by one unit per reading. *)
Definition clock (n : nat) : Q := inject_Z (1000 + Z.of_nat n).

(** Scenario A: items 1..7, page size 3, cursor at 2. *)
Definition A : Scraper := scraper (List.map (message 1) [1; 2; 3; 4; 5; 6; 7]) 3.
Definition A_basic : State BasicStore.t :=
  start (update_frontier 1 2 BasicStore.init).
Definition A_mongo : State MongoStore.t :=
  start (update_frontier 1 2 MongoStore.init).

(** The state of [A_mongo] after one round of the steady-state loop. *)
Definition A_mongo_after : State MongoStore.t :=
  (Scraper._scrape_channel MongoMessageConverter.convert_message A 1
     A_mongo).2.

(** Scenario B: a stream without items. *)
Definition B : Scraper := scraper [] 3.

(** Scenario C: items 6..10 exist, 7 is already stored, look-back 5. *)
Definition C : Scraper := scraper (List.map (message 1) [6; 7; 8; 9; 10]) 5.
(** Its states: a pass over the stream has just finished, and item 7 has
    been stored. *)
Definition C_basic : State BasicStore.t :=
  (DataManager.save_message SimpleMessageConverter.convert_message
     (message 1 7) false
     (DataManager.finish_frontier clock 1 (start BasicStore.init)).2).2.
Definition C_mongo : State MongoStore.t :=
  (DataManager.save_message MongoMessageConverter.convert_message
     (message 1 7) false
     (DataManager.finish_frontier clock 1 (start MongoStore.init)).2).2.

End Scenario.

(** ** Further definitions: scheduling delays and store invariants *)

(** Python's [x % m] for a positive modulus, on the numbers the floats
    denote: the remainder has the sign of [m]. *)
Definition py_mod (x m : Q) : Q := x - m * inject_Z (Qfloor (x / m)).

(** The candidates for [Scraper.sleep_time], as functions of the reading
    [now] that their call of [time.time()] returns. *)
Definition delay_to_next_minute (now : Q) : Q := 60 - py_mod now 60.

Definition delay_to_next_hour (now : Q) : Q := py_mod (3600 - now) 3600.

Definition delay_to_next_day (now : Q) : Q := py_mod (86400 - now) 86400.

Definition delay_to_next_week (now : Q) : Q :=
  py_mod (86400 - now) (86400 * 7).

Definition delay_to_next_month (now : Q) : Q :=
  py_mod (86400 - now) (86400 * 7 * 31).

(** An updater as [MongoMessageConverter] returns it for some message. *)
Definition is_updater (u : pyval) : Prop :=
  exists message obj,
    u = MongoMessageConverter.updater message obj
    /\ dict_lookup obj "message_id" = Some (PInt (id message))
    /\ dict_lookup obj "reply_to" = Some (reply_to_of message).

(** A record that carries an integer [message_id], as
    [SimpleMessageConverter] returns it. *)
Definition has_message_id (r : pyval) : Prop :=
  exists z, subscript r "message_id" = Ok (PInt z).

(** A frontier document that carries an integer [channel_id], as
    [MongoStore] writes it. *)
Definition has_channel_id (d : dict) : Prop :=
  exists z, dict_lookup d "channel_id" = Some (PInt z).

(** The state [st] with another store. *)
Definition with_store {S} (st : State S) (s : S) : State S :=
  {| store := s; authors := authors st; ticks := ticks st |}.

(** A request of [MongoStore.save_messages]: it filters on an integer
    [message_id] and its update keeps that field. *)
Definition keyed_request (r : Mongo.UpdateOne) : Prop :=
  Mongo.uo_key r = "message_id"
  /\ exists z, Mongo.uo_value r = PInt z
               /\ keeps_key "message_id" (PInt z) (Mongo.uo_update r).

(** The exception that fetching the thread's history raises, if any. *)
Definition history_error (thread : option Thread) : option exn :=
  t ← thread; t_history_error t.

(** The field [k] of the converted message inside an updater. *)
Definition set_field (u : pyval) (k : string) : outcome pyval :=
  obind (subscript u "$set") (fun s => subscript s k).

(** * Properties *)

(** ** Dictionaries *)

Lemma pyval_eqb_int_r x z : pyval_eqb x (PInt z) = true -> x = PInt z.
Proof.
  destruct x; simpl; try discriminate.
  intros E. apply Z.eqb_eq in E. by subst.
Qed.

Lemma pyval_eqb_int z1 z2 : pyval_eqb (PInt z1) (PInt z2) = (z1 =? z2).
Proof. reflexivity. Qed.

Lemma py_eq_int z1 z2 : py_eq (PInt z1) (PInt z2) = (z1 =? z2).
Proof. reflexivity. Qed.

Lemma dict_lookup_set d k v k' :
  dict_lookup (dict_set d k v) k' =
  if String.eqb k k' then Some v else dict_lookup d k'.
Proof.
  induction d as [|[k0 v0] d IH]; simpl.
  - reflexivity.
  - destruct (String.eqb k0 k) eqn:E0; simpl.
    + apply String.eqb_eq in E0. subst k0.
      destruct (String.eqb k k'); reflexivity.
    + rewrite IH. destruct (String.eqb k0 k') eqn:E1; [|reflexivity].
      apply String.eqb_eq in E1. subst k0.
      destruct (String.eqb k k') eqn:E2; [|reflexivity].
      apply String.eqb_eq in E2. subst k'. by rewrite String.eqb_refl in E0.
Qed.

Lemma dict_lookup_set_eq d k v : dict_lookup (dict_set d k v) k = Some v.
Proof. by rewrite dict_lookup_set, String.eqb_refl. Qed.

Lemma dict_lookup_set_ne d k v k' :
  k <> k' -> dict_lookup (dict_set d k v) k' = dict_lookup d k'.
Proof.
  intros Hne. rewrite dict_lookup_set.
  destruct (String.eqb k k') eqn:E; [|reflexivity].
  by apply String.eqb_eq in E.
Qed.

Lemma dict_lookup_elem_of d k :
  dict_lookup d k <> None -> k ∈ List.map fst d.
Proof.
  induction d as [|[k0 v0] d IH]; simpl; [done|].
  destruct (String.eqb k0 k) eqn:E.
  - apply String.eqb_eq in E. subst. intros _. apply elem_of_cons. auto.
  - intros Hk. apply elem_of_cons. auto.
Qed.

(** Assigning the keys [ks] of [d'] one by one. *)
Lemma dict_lookup_assign d' ks : forall d k,
  dict_lookup
    (fold_left (fun acc k => match dict_lookup d' k with
                             | Some v => dict_set acc k v
                             | None => acc
                             end) ks d) k =
  if bool_decide (k ∈ ks) then
    match dict_lookup d' k with Some v => Some v | None => dict_lookup d k end
  else dict_lookup d k.
Proof.
  induction ks as [|k0 ks IH]; intros d k; simpl.
  - reflexivity.
  - rewrite IH. destruct (decide (k0 = k)) as [->|Hne].
    + rewrite (bool_decide_eq_true_2 (k ∈ k :: ks)) by (apply elem_of_cons; auto).
      destruct (dict_lookup d' k) eqn:E.
      * by destruct (bool_decide (k ∈ ks)); rewrite ?dict_lookup_set_eq.
      * by destruct (bool_decide (k ∈ ks)).
    + destruct (bool_decide (k ∈ ks)) eqn:B.
      * apply bool_decide_eq_true_1 in B.
        rewrite (bool_decide_eq_true_2 (k ∈ k0 :: ks))
          by (apply elem_of_cons; auto).
        destruct (dict_lookup d' k); [reflexivity|].
        destruct (dict_lookup d' k0); [|reflexivity].
        by apply dict_lookup_set_ne.
      * apply bool_decide_eq_false_1 in B.
        rewrite (bool_decide_eq_false_2 (k ∈ k0 :: ks)).
        2: { rewrite elem_of_cons. intros [?|?]; congruence. }
        destruct (dict_lookup d' k0); [|reflexivity].
        by apply dict_lookup_set_ne.
Qed.

Lemma dict_lookup_update d d' k :
  dict_lookup (dict_update d d') k =
  match dict_lookup d' k with Some v => Some v | None => dict_lookup d k end.
Proof.
  unfold dict_update. rewrite dict_lookup_assign.
  destruct (bool_decide (k ∈ List.map fst d')) eqn:B; [reflexivity|].
  apply bool_decide_eq_false_1 in B.
  destruct (dict_lookup d' k) eqn:E; [|reflexivity].
  exfalso. apply B, dict_lookup_elem_of. by rewrite E.
Qed.

(** ** MongoDB collections *)

Section MongoLemmas.
Import Mongo.

Lemma pyval_eqb_int_l z w : pyval_eqb (PInt z) w = true -> w = PInt z.
Proof.
  destruct w; simpl; try discriminate.
  intros E. apply Z.eqb_eq in E. by subst.
Qed.

Lemma doc_matches_int key z d :
  doc_matches key (PInt z) d = true <-> dict_lookup d key = Some (PInt z).
Proof.
  unfold doc_matches. split.
  - destruct (dict_lookup d key) as [x|]; [|discriminate].
    intros E. by rewrite (pyval_eqb_int_r _ _ E).
  - intros ->. simpl. apply Z.eqb_refl.
Qed.

Lemma find_one_None key v c :
  find_one key v c = None <-> count_docs key v c = 0%nat.
Proof.
  unfold find_one, count_docs.
  induction c as [|d c IH]; simpl; [done|].
  destruct (doc_matches key v d); simpl; [split; discriminate|exact IH].
Qed.

Lemma find_one_matches key v c d :
  find_one key v c = Some d -> doc_matches key v d = true.
Proof. intros Hf. by destruct (find_some _ _ Hf). Qed.

Lemma count_docs_update_one key v upd w c :
  keeps_key key v upd ->
  count_docs key w (update_one key v upd c) =
  (count_docs key w c +
   if Nat.eqb (count_docs key v c) 0 && pyval_eqb v w then 1 else 0)%nat.
Proof.
  intros [Hupd Hins]. unfold count_docs.
  induction c as [|d c IH]; simpl.
  - unfold doc_matches at 1. rewrite Hins. by destruct (pyval_eqb v w).
  - destruct (doc_matches key v d) eqn:Hd; simpl.
    + assert (doc_matches key w (apply_update upd false d)
              = doc_matches key w d) as ->.
      { unfold doc_matches. by rewrite Hupd. }
      destruct (doc_matches key w d); simpl; lia.
    + destruct (doc_matches key w d); simpl; rewrite IH; lia.
Qed.

Lemma unique_index_update_one key z upd c :
  keeps_key key (PInt z) upd ->
  unique_index key c ->
  unique_index key (update_one key (PInt z) upd c)
  /\ count_docs key (PInt z) (update_one key (PInt z) upd c) = 1%nat.
Proof.
  intros Hk Hu. split.
  - intros w. rewrite count_docs_update_one by done.
    specialize (Hu w).
    destruct (Nat.eqb (count_docs key (PInt z) c) 0) eqn:E0; cbn [andb]; [|lia].
    destruct (pyval_eqb (PInt z) w) eqn:Ew; [|lia].
    apply pyval_eqb_int_l in Ew. subst w.
    apply Nat.eqb_eq in E0. rewrite E0. lia.
  - rewrite count_docs_update_one by done.
    specialize (Hu (PInt z)). rewrite pyval_eqb_int, Z.eqb_refl, andb_true_r.
    destruct (Nat.eqb (count_docs key (PInt z) c) 0) eqn:E0.
    + apply Nat.eqb_eq in E0. lia.
    + apply Nat.eqb_neq in E0. lia.
Qed.

Lemma find_one_update_one key v upd c :
  keeps_key key v upd ->
  pyval_eqb v v = true ->
  find_one key v (update_one key v upd c) =
  Some (match find_one key v c with
        | Some d => apply_update upd false d
        | None => apply_update upd true [(key, v)]
        end).
Proof.
  intros [Hupd Hins] Hv. unfold find_one.
  induction c as [|d c IH]; simpl.
  - unfold doc_matches at 1. by rewrite Hins, Hv.
  - destruct (doc_matches key v d) eqn:Hd; simpl.
    + assert (doc_matches key v (apply_update upd false d) = true) as ->.
      { unfold doc_matches in *. by rewrite Hupd. }
      reflexivity.
    + by rewrite Hd.
Qed.

(** A document that does not match [w] before an update on another value
    does not match it afterwards. *)
Lemma find_one_update_one_ne key v upd w c :
  keeps_key key v upd ->
  pyval_eqb v w = false ->
  find_one key w c = None ->
  find_one key w (update_one key v upd c) = None.
Proof.
  intros Hk Hne Hc. apply find_one_None. apply find_one_None in Hc.
  rewrite count_docs_update_one by done. rewrite Hc, Hne, andb_false_r.
  reflexivity.
Qed.

Lemma add_to_set_lookup_ne d field v k :
  field <> k -> dict_lookup (add_to_set d field v) k = dict_lookup d k.
Proof.
  intros Hne. unfold add_to_set.
  destruct (dict_lookup d field) as [[| | | |l|]|];
    rewrite ?dict_lookup_set_ne by done; try reflexivity.
  destruct (existsb _ l); by rewrite ?dict_lookup_set_ne.
Qed.

(** The update [{"$addToSet": {"replies": x}}] of [save_messages]. *)
Lemma keeps_key_replies v x :
  keeps_key "message_id" v [("$addToSet", PDict [("replies", x)])].
Proof.
  split.
  - intros d _. unfold apply_update, operator. simpl.
    by apply add_to_set_lookup_ne.
  - reflexivity.
Qed.

Lemma apply_update_set data inserting d :
  apply_update [("$set", PDict data)] inserting d = dict_update d data.
Proof. by destruct inserting. Qed.

Lemma apply_update_updater obj soi inserting d :
  apply_update [("$set", PDict obj); ("$setOnInsert", PDict soi)] inserting d
  = if inserting then dict_update (dict_update d obj) soi
    else dict_update d obj.
Proof. by destruct inserting. Qed.

(** The update [{"$set": obj, "$setOnInsert": {...}}] that
    [MongoMessageConverter] builds. *)
Lemma keeps_key_updater z obj content :
  dict_lookup obj "message_id" = Some (PInt z) ->
  keeps_key "message_id" (PInt z)
    [("$set", PDict obj);
     ("$setOnInsert",
       PDict [("message_content", content); ("processed", PBool false)])].
Proof.
  intros Hobj. split.
  - intros d Hd. apply doc_matches_int in Hd.
    by rewrite apply_update_updater, dict_lookup_update, Hobj, Hd.
  - by rewrite apply_update_updater, !dict_lookup_update, Hobj.
Qed.

(** The updates of [update_frontier] and [set_frontier]. *)
Lemma keeps_key_set z data :
  (dict_lookup data "channel_id" = None
   \/ dict_lookup data "channel_id" = Some (PInt z)) ->
  keeps_key "channel_id" (PInt z) [("$set", PDict data)].
Proof.
  intros Hdata. split.
  - intros d Hd. apply doc_matches_int in Hd.
    rewrite apply_update_set, dict_lookup_update.
    by destruct Hdata as [-> | ->].
  - rewrite apply_update_set, dict_lookup_update.
    by destruct Hdata as [-> | ->].
Qed.

End MongoLemmas.

(** ** The two stores satisfy the common laws *)

Lemma truthy_dict d k v : dict_lookup d k = Some v -> truthy (PDict d) = true.
Proof. by destruct d. Qed.

Lemma BasicStore_get_set c d s :
  BasicStore.get_frontier c (BasicStore.set_frontier c d s) = d.
Proof.
  unfold BasicStore.get_frontier, BasicStore.set_frontier. simpl.
  by rewrite lookup_insert_eq.
Qed.

#[export] Instance BasicStore_laws : DataStoreLaws BasicStore.t.
Proof.
  split.
  - reflexivity.
  - reflexivity.
  - intros c i s. simpl.
    unfold BasicStore.update_frontier, BasicStore.get_frontier at 1. simpl.
    rewrite lookup_insert_eq. simpl. apply dict_lookup_set_eq.
  - intros c d s k v _ Hk. simpl. by rewrite BasicStore_get_set.
Qed.

Lemma MongoStore_save_messages_frontiers l s :
  MongoStore.frontiers (MongoStore.save_messages l s).2 = MongoStore.frontiers s.
Proof.
  unfold MongoStore.save_messages, bind, lift, ret, MongoStore.on_messages.
  destruct (traverse MongoStore.upsert_request l) as [requests|e]; [|done].
  destruct (Mongo.bulk_write requests (MongoStore.messages s)) as [[[]|e] c1];
    simpl; try done.
  destruct (MongoStore.reply_requests l) as [[|r replies]|e]; simpl; done.
Qed.

(** Reading a frontier back after [update_one] with a [$set] on it. *)
Lemma MongoStore_get_after_set c data s :
  (dict_lookup data "channel_id" = None
   \/ dict_lookup data "channel_id" = Some (PInt c)) ->
  MongoStore.get_frontier c
    {| MongoStore.messages := MongoStore.messages s;
       MongoStore.frontiers :=
         Mongo.update_one "channel_id" (PInt c) [("$set", PDict data)]
           (MongoStore.frontiers s) |}
  = dict_update
      (match Mongo.find_one "channel_id" (PInt c) (MongoStore.frontiers s) with
       | Some d => d
       | None => [("channel_id", PInt c)]
       end) data.
Proof.
  intros Hdata. unfold MongoStore.get_frontier. cbn [MongoStore.frontiers].
  pose proof (keeps_key_set c data Hdata) as Hk.
  rewrite (find_one_update_one _ _ _ _ Hk) by (simpl; apply Z.eqb_refl).
  destruct (Mongo.find_one "channel_id" (PInt c) (MongoStore.frontiers s))
    as [d|] eqn:Hf; rewrite apply_update_set.
  - apply find_one_matches, doc_matches_int in Hf.
    erewrite truthy_dict; [done|].
    rewrite dict_lookup_update. destruct Hdata as [-> | ->]; [exact Hf|done].
  - erewrite truthy_dict; [done|].
    rewrite dict_lookup_update. destruct Hdata as [-> | ->]; done.
Qed.

Lemma MongoStore_get_frontier_channel c s :
  dict_lookup (MongoStore.get_frontier c s) "channel_id" = None
  \/ dict_lookup (MongoStore.get_frontier c s) "channel_id" = Some (PInt c).
Proof.
  unfold MongoStore.get_frontier.
  destruct (Mongo.find_one _ _ _) as [d|] eqn:Hf; [|by left].
  apply find_one_matches, doc_matches_int in Hf.
  erewrite truthy_dict by done. by right.
Qed.

#[export] Instance MongoStore_laws : DataStoreLaws MongoStore.t.
Proof.
  split.
  - intros l s c. simpl. unfold MongoStore.get_frontier.
    by rewrite MongoStore_save_messages_frontiers.
  - intros m s c. simpl. unfold MongoStore.get_frontier, MongoStore.save_message.
    by rewrite MongoStore_save_messages_frontiers.
  - intros c i s. simpl. unfold MongoStore.update_frontier.
    rewrite MongoStore_get_after_set by (by left).
    by rewrite dict_lookup_update.
  - intros c d s k v Hc Hk. simpl in *. unfold MongoStore.set_frontier.
    rewrite MongoStore_get_after_set.
    + by rewrite dict_lookup_update, Hk.
    + rewrite Hc. apply MongoStore_get_frontier_channel.
Qed.

(** ** Frontier defaults *)

(** C8, as stated, fails for [MongoStore]: for a channel without a frontier
    document [get_frontier] returns the empty dictionary, not the dictionary
    with a null cursor and [previous_scan_time] 0. *)
Lemma frontier_default_mongo_counterexample :
  get_frontier 1 MongoStore.init <> default_frontier.
Proof. discriminate. Qed.

(** C8 (amended): for a channel without a stored frontier, [BasicStore]
    returns the default frontier (null cursor, [previous_scan_time] 0);
    [MongoStore] returns the empty dictionary, which [DataManager] reads
    through its own defaults as a null cursor and [previous_scan_time] 0. *)
Theorem frontier_default (c : Z) (sb : BasicStore.t) (sm : MongoStore.t) :
  BasicStore.frontier sb !! c = None ->
  Mongo.find_one "channel_id" (PInt c) (MongoStore.frontiers sm) = None ->
  get_frontier c sb = default_frontier
  /\ get_frontier c sm = []
  /\ cursor_of (get_frontier c sm) = PNone
  /\ previous_scan_time_of (get_frontier c sm) = PInt 0
  /\ (forall st : State BasicStore.t, store st = sb ->
        DataManager.get_frontier_message c st = (Ok None, st))
  /\ (forall st : State MongoStore.t, store st = sm ->
        DataManager.get_frontier_message c st = (Ok None, st)).
Proof.
  intros Hb Hm.
  assert (get_frontier c sb = default_frontier) as Eb.
  { simpl. unfold BasicStore.get_frontier. by rewrite Hb. }
  assert (get_frontier c sm = []) as Em.
  { simpl. unfold MongoStore.get_frontier. by rewrite Hm. }
  repeat split; try done.
  - by rewrite Em.
  - by rewrite Em.
  - intros st <-. unfold DataManager.get_frontier_message,
      DataManager.get_frontier, bind, gets. by rewrite Eb.
  - intros st <-. unfold DataManager.get_frontier_message,
      DataManager.get_frontier, bind, gets. by rewrite Em.
Qed.

Lemma frontier_default_witness :
  get_frontier 1 BasicStore.init = default_frontier
  /\ get_frontier 1 MongoStore.init = [].
Proof.
  destruct (frontier_default 1 BasicStore.init MongoStore.init)
    as (Hb & Hm & _); [reflexivity | reflexivity |].
  exact (conj Hb Hm).
Defined.

(** ** The scan-due predicate *)

Lemma Qlt_bool_iff x y : Qlt_bool x y = true <-> (x < y)%Q.
Proof.
  unfold Qlt_bool. rewrite negb_true_iff. split.
  - intros E. apply Qnot_le_lt. intros Hle.
    apply Qle_bool_iff in Hle. congruence.
  - intros Hlt. destruct (Qle_bool y x) eqn:E; [|done].
    apply Qle_bool_iff in E. by apply Qlt_not_le in Hlt.
Qed.

(** [int(x)] is less than one below [x] at most. *)
Lemma py_int_lower (x : Q) : (x - 1 < inject_Z (py_int x))%Q.
Proof.
  destruct x as [n d]. unfold py_int, Qlt, Qminus, Qplus, Qopp, inject_Z.
  simpl. pose proof (Z.quot_rem' n (Z.pos d)) as Hqr.
  pose proof (Z.rem_bound_abs n (Z.pos d)) as Hr.
  assert (Z.pos d <> 0) as Hd by lia. specialize (Hr Hd). nia.
Qed.

Section ScanDue.
Context {S : Type} `{DataStoreLaws S}.
Variable clock : nat -> Q.

Lemma should_rescan_eval (dm : DataManager) (c iv ts : Z) (st : State S) :
  rescan_interval dm !! c = Some iv ->
  as_number (previous_scan_time_of (get_frontier c (store st))) = Ok ts ->
  DataManager.should_rescan clock dm c st =
  (Ok (Qlt_bool (inject_Z ts) (clock (ticks st) - inject_Z iv)), tick st).
Proof.
  intros Hiv Hts.
  unfold DataManager.should_rescan, DataManager.get_frontier,
    DataManager.time_time, bind, gets, lift, ret.
  rewrite Hiv. unfold previous_scan_time_of in Hts. cbn [store tick].
  by rewrite Hts.
Qed.

Lemma finish_frontier_eval (c : Z) (st : State S) :
  DataManager.finish_frontier clock c st =
  (Ok tt,
   {| store :=
        set_frontier c
          (dict_set (dict_set (get_frontier c (store st)) "id" PNone)
                    "previous_scan_time" (PInt (py_int (clock (ticks st)))))
          (store st);
      authors := authors st;
      ticks := Datatypes.S (ticks st) |}).
Proof. reflexivity. Qed.

End ScanDue.

(** C6, as stated, fails on the boundary: with the default interval 60, no
    stored frontier ([previous_scan_time] 0) and the clock at exactly 60,
    [now - previous_scan_time >= rescanInterval] holds but [should_rescan]
    answers [False]. *)
Lemma scan_due_boundary_counterexample :
  (DataManager.should_rescan (fun _ => 60%Q) (DataManager.init [1]) 1
     (Scenario.start BasicStore.init)).1 = Ok false
  /\ spec_isScanDue 60%Q 0 60 = true.
Proof. split; reflexivity. Qed.

(** C6 (amended): for a channel with rescan interval [iv] and stored
    [previous_scan_time] [ts], [should_rescan] returns true if and only if
    [now - ts > iv], strictly; and when the interval is at least one time
    unit (60 by default), it returns false right after [finish_frontier] has
    set [previous_scan_time], as long as the clock has advanced by no more
    than [iv - 1]. *)
Theorem scan_due_strict {S : Type} `{DataStoreLaws S} (clock : nat -> Q)
    (dm : DataManager) (c iv ts : Z) (st : State S) :
  rescan_interval dm !! c = Some iv ->
  as_number (previous_scan_time_of (get_frontier c (store st))) = Ok ts ->
  (exists b,
      DataManager.should_rescan clock dm c st = (Ok b, tick st)
      /\ (b = true <-> (inject_Z iv < clock (ticks st) - inject_Z ts)%Q))
  /\ ((clock (Datatypes.S (ticks st)) - clock (ticks st) <= inject_Z iv - 1)%Q ->
      exists st1,
        DataManager.finish_frontier clock c st = (Ok tt, st1)
        /\ DataManager.should_rescan clock dm c st1 = (Ok false, tick st1)).
Proof.
  intros Hiv Hts. split.
  - eexists. split; [by apply should_rescan_eval|].
    rewrite Qlt_bool_iff. split; intros Hlt; lra.
  - intros Hclock. eexists. split; [apply finish_frontier_eval|].
    set (t1 := clock (ticks st)) in *.
    set (front2 := dict_set _ "previous_scan_time" _).
    assert (dict_lookup (get_frontier c (set_frontier c front2 (store st)))
              "previous_scan_time" = Some (PInt (py_int t1))) as Hread.
    { apply set_frontier_lookup; unfold front2.
      - by rewrite !dict_lookup_set_ne.
      - apply dict_lookup_set_eq. }
    rewrite (should_rescan_eval clock dm c iv (py_int t1)); [|exact Hiv|].
    2: { unfold previous_scan_time_of, dict_get. cbn [store].
         by rewrite Hread. }
    f_equal. f_equal. cbn [ticks].
    destruct (Qlt_bool _ _) eqn:E; [|done].
    apply Qlt_bool_iff in E. pose proof (py_int_lower t1). lra.
Qed.

Lemma scan_due_strict_witness :
  exists st1,
    DataManager.finish_frontier (fun _ => 1000%Q) 1
      (Scenario.start BasicStore.init) = (Ok tt, st1)
    /\ DataManager.should_rescan (fun _ => 1000%Q) (DataManager.init [1]) 1 st1
       = (Ok false, tick st1).
Proof.
  refine (proj2 (scan_due_strict (fun _ => 1000%Q) (DataManager.init [1])
                   1 60 0 (Scenario.start BasicStore.init) _ _) _).
  - reflexivity.
  - reflexivity.
  - unfold Qle. simpl. lia.
Defined.

(** ** Saving a batch *)

Section SaveMessages.
Context {S : Type} `{DataStore S}.
Variable converter : MessageConverter.

Lemma convert_message_store (message : Message) (st st' : State S) o :
  DataManager.convert_message converter message st = (o, st') ->
  store st' = store st /\ ticks st' = ticks st.
Proof.
  unfold DataManager.convert_message, on_authors.
  destruct (converter _ _ _). by intros [= _ <-].
Qed.

Lemma convert_message_Ok (message : Message) (st st' : State S) r :
  DataManager.convert_message converter message st = (Ok r, st') ->
  converts_to converter message r.
Proof.
  unfold DataManager.convert_message, on_authors, converts_to.
  destruct (converter _ _ _) as [o a'] eqn:E. intros [= -> _]. eauto.
Qed.

(** Conversion never touches the store, whether it succeeds or not. *)
Lemma mapM_convert_store (l : list Message) : forall (st st' : State S) o,
  mapM (DataManager.convert_message converter) l st = (o, st') ->
  store st' = store st /\ ticks st' = ticks st.
Proof.
  induction l as [|m l IH]; intros st st' o.
  - by intros [= _ <-].
  - cbn [mapM]. unfold bind at 1.
    destruct (DataManager.convert_message converter m st)
      as [[r|e] st1] eqn:Em;
      apply convert_message_store in Em as [Hs Ht].
    + unfold bind.
      destruct (mapM _ l st1) as [[rs|e] st2] eqn:El;
        apply IH in El as [Hs1 Ht1]; intros [= _ <-]; split; congruence.
    + intros [= _ <-]. done.
Qed.

Lemma mapM_convert_Ok (l : list Message) : forall (st st' : State S) rs,
  mapM (DataManager.convert_message converter) l st = (Ok rs, st') ->
  Forall2 (converts_to converter) l rs.
Proof.
  induction l as [|m l IH]; intros st st' rs.
  - intros [= <- _]. constructor.
  - cbn [mapM]. unfold bind at 1.
    destruct (DataManager.convert_message converter m st)
      as [[r|e] st1] eqn:Em; [|done].
    unfold bind.
    destruct (mapM _ l st1) as [[rs1|e] st2] eqn:El; [|done].
    intros [= <- _]. constructor; eauto using convert_message_Ok.
Qed.

(** A failing item ends the comprehension where it stands. *)
Lemma mapM_convert_Raise (pre post : list Message) (m : Message) :
  forall (st st1 st2 : State S) rs e,
  mapM (DataManager.convert_message converter) pre st = (Ok rs, st1) ->
  DataManager.convert_message converter m st1 = (Raise e, st2) ->
  mapM (DataManager.convert_message converter) (pre ++ m :: post) st
  = (Raise e, st2).
Proof.
  induction pre as [|x pre IH]; intros st st1 st2 rs e.
  - intros [= _ <-] Hm. cbn [app mapM]. unfold bind. by rewrite Hm.
  - cbn [app mapM]. unfold bind at 1 3.
    destruct (DataManager.convert_message converter x st)
      as [[r|e'] st0]; [|done].
    unfold bind at 1 2.
    destruct (mapM _ pre st0) as [[rs0|e'] st0'] eqn:Epre; [|done].
    intros [= _ <-] Hm. by rewrite (IH _ _ _ _ _ Epre Hm).
Qed.

Lemma save_messages_eval (msgs : list Message) (last_message : Message)
    (upd_frontier : bool) (st st1 : State S) converted s2 :
  last msgs = Some last_message ->
  mapM (DataManager.convert_message converter)
       (List.filter not_marker msgs) st = (Ok converted, st1) ->
  save_messages converted (store st1) = (Ok tt, s2) ->
  DataManager.save_messages converter msgs upd_frontier st =
  (Ok tt,
   {| store := if upd_frontier
               then update_frontier (channel_id (data last_message))
                                    (id (data last_message)) s2
               else s2;
      authors := authors st1;
      ticks := ticks st1 |}).
Proof.
  intros Hlast Hconv Hsave.
  unfold DataManager.save_messages, bind. fold not_marker.
  rewrite Hconv. unfold on_store at 1. rewrite Hsave, Hlast.
  by destruct upd_frontier.
Qed.

End SaveMessages.




(** ** Conversion errors *)

(** C9, as stated, fails: when the conversion of the second of three items
    raises (its thread cannot be fetched), the call raises and neither the
    first nor the third item is in the store afterwards. *)
Lemma conversion_error_counterexample :
  let r := DataManager.save_messages SimpleMessageConverter.convert_message
             [Scenario.message 1 1; Scenario.with_broken_thread 1 2;
              Scenario.message 1 3] false (Scenario.start BasicStore.init) in
  r.1 = Raise HTTPException
  /\ message_exists 1 (store r.2) = Ok false
  /\ message_exists 3 (store r.2) = Ok false.
Proof. repeat split; reflexivity. Qed.

(** C9 (amended): when the conversion of one item of a batch raises,
    [DataManager.save_messages] raises that exception with it; the store is
    left as it was, so no item of the batch is saved and the cursor is not
    moved. *)
Theorem conversion_error_aborts_batch {S : Type} `{DataStore S}
    (converter : MessageConverter) (msgs pre post : list Message)
    (m : Message) (upd_frontier : bool) (st st1 st2 : State S)
    (rs : list pyval) (e : exn) :
  List.filter not_marker msgs = (pre ++ m :: post)%list ->
  mapM (DataManager.convert_message converter) pre st = (Ok rs, st1) ->
  DataManager.convert_message converter m st1 = (Raise e, st2) ->
  DataManager.save_messages converter msgs upd_frontier st = (Raise e, st2)
  /\ store st2 = store st.
Proof.
  intros Hsplit Hpre Hm.
  pose proof (mapM_convert_Raise converter pre post m _ _ _ _ _ Hpre Hm) as Hall.
  split.
  - unfold DataManager.save_messages, bind at 1. fold not_marker.
    by rewrite Hsplit, Hall.
  - by apply mapM_convert_store in Hall as [? _].
Qed.

Lemma conversion_error_aborts_batch_witness :
  exists st2 : State MongoStore.t,
    DataManager.save_messages MongoMessageConverter.convert_message
      [Scenario.message 1 1; Scenario.with_broken_thread 1 2;
       Scenario.message 1 3] true (Scenario.start MongoStore.init)
    = (Raise HTTPException, st2)
    /\ store st2 = MongoStore.init.
Proof.
  eexists.
  eapply (conversion_error_aborts_batch MongoMessageConverter.convert_message
            [Scenario.message 1 1; Scenario.with_broken_thread 1 2;
             Scenario.message 1 3]
            [Scenario.message 1 1] [Scenario.message 1 3]
            (Scenario.with_broken_thread 1 2) true
            (Scenario.start MongoStore.init));
    reflexivity.
Defined.

(** ** Empty batches *)

(** C4 (the code departs from it): [DataManager.save_messages] raises on an
    empty batch, at [messages[-1]] with [BasicStore] and already at the empty
    [bulk_write] with [MongoStore]; so the steady-state loop over a stream
    without items raises instead of finishing the pass, and no frontier is
    written. *)
Theorem empty_batch_raises :
  (forall converter upd_frontier (st : State BasicStore.t),
      (DataManager.save_messages converter [] upd_frontier st).1
      = Raise IndexError)
  /\ (forall converter upd_frontier (st : State MongoStore.t),
      (DataManager.save_messages converter [] upd_frontier st).1
      = Raise InvalidOperation)
  /\ (forall fuel,
      let r := Scraper.scrape_all_channels
                 SimpleMessageConverter.convert_message Scenario.clock
                 Scenario.B (Datatypes.S fuel)
                 (Scenario.start BasicStore.init) in
      r.1 = Raise IndexError /\ BasicStore.frontier (store r.2) = ∅)
  /\ (forall fuel,
      let r := Scraper.scrape_all_channels
                 MongoMessageConverter.convert_message Scenario.clock
                 Scenario.B (Datatypes.S fuel)
                 (Scenario.start MongoStore.init) in
      r.1 = Raise InvalidOperation /\ MongoStore.frontiers (store r.2) = []).
Proof.
  repeat split; reflexivity.
Qed.

(** ** The steady-state loop *)

Section SteadyState.
Context {S : Type} `{DataStoreLaws S}.
Variable converter : MessageConverter.

Lemma get_frontier_message_state (c : Z) (st st' : State S) o :
  DataManager.get_frontier_message c st = (o, st') -> st' = st.
Proof.
  unfold DataManager.get_frontier_message, DataManager.get_frontier,
    bind, gets, lift, ret.
  destruct (truthy _); [|by intros [= _ <-]].
  destruct (as_number _); by intros [= _ <-].
Qed.

(** Without [update_frontier], saving a batch leaves every frontier as it
    was. *)
Lemma save_messages_keeps_frontier (msgs : list Message) (c : Z)
    (st st' : State S) o :
  DataManager.save_messages converter msgs false st = (o, st') ->
  get_frontier c (store st') = get_frontier c (store st).
Proof.
  unfold DataManager.save_messages, bind at 1.
  destruct (mapM _ _ st) as [[converted|e] st1] eqn:Hconv;
    apply mapM_convert_store in Hconv as [Hs _].
  - unfold bind at 1, on_store at 1.
    pose proof (save_messages_frontier converted (store st1) c) as Hsave.
    destruct (save_messages converted (store st1)) as [[[]|e] s2];
      simpl in Hsave.
    + unfold bind, lift, ret. destruct (last msgs);
        intros [= _ <-]; simpl; congruence.
    + intros [= _ <-]. simpl. congruence.
  - intros [= _ <-]. congruence.
Qed.

(** A round of the steady-state loop never moves a cursor. *)
Lemma scrape_channel_keeps_frontier (self : Scraper) (c c' : Z)
    (st : State S) :
  get_frontier c' (store (Scraper._scrape_channel converter self c st).2)
  = get_frontier c' (store st).
Proof.
  unfold Scraper._scrape_channel, bind at 1.
  destruct (DataManager.get_frontier_message c st) as [[frontier|e] st0] eqn:Hf;
    apply get_frontier_message_state in Hf; subst st0; [|done].
  unfold bind at 1, Scraper.the_channel, lift.
  destruct (client self !! c) as [channel|]; [|done].
  unfold bind, Scraper._process_messages.
  destruct (DataManager.save_messages _ _ _ _) as [[[]|e] st1] eqn:Hsave;
    apply (save_messages_keeps_frontier _ c') in Hsave; exact Hsave.
Qed.

End SteadyState.

(** C1 (the code departs from it): [_scrape_channel] saves the batch without
    [update_frontier], so the cursor is never advanced. In scenario A the
    page after cursor 2 is [[3; 4; 5]] and the round reports that more
    remains, but the cursor is still 2 afterwards, not 5, with either store;
    and in general no round changes any frontier. *)
Theorem steady_state_cursor_not_advanced :
  List.map (fun m => id (data m))
    (history_oldest_first
       (Scenario.channel_of (List.map (Scenario.message 1) [1; 2; 3; 4; 5; 6; 7]))
       3 (Some 2)) = [3; 4; 5]
  /\ (let r := Scraper._scrape_channel SimpleMessageConverter.convert_message
                 Scenario.A 1 Scenario.A_basic in
      r.1 = Ok false
      /\ cursor_of (get_frontier 1 (store r.2)) = PInt 2
      /\ (DataManager.get_frontier_message 1 r.2).1 = Ok (Some 2))
  /\ (let r := Scraper._scrape_channel MongoMessageConverter.convert_message
                 Scenario.A 1 Scenario.A_mongo in
      r.1 = Ok false
      /\ cursor_of (get_frontier 1 (store r.2)) = PInt 2
      /\ (DataManager.get_frontier_message 1 r.2).1 = Ok (Some 2))
  /\ (forall converter self c c' (st : State BasicStore.t),
      get_frontier c' (store (Scraper._scrape_channel converter self c st).2)
      = get_frontier c' (store st))
  /\ (forall converter self c c' (st : State MongoStore.t),
      get_frontier c' (store (Scraper._scrape_channel converter self c st).2)
      = get_frontier c' (store st)).
Proof.
  split; [reflexivity|]. split; [by vm_compute|]. split; [by vm_compute|].
  split; intros; apply scrape_channel_keeps_frontier.
Qed.

Section Stuck.
Context {S : Type} `{DataStore S}.
Variable converter : MessageConverter.
Variable clock : nat -> Q.

(** A round that reports that more remains keeps the stream in the
    working set. *)
Lemma scrape_loop_step (self : Scraper) (c : Z) (fuel i : nat)
    (st st' : State S) :
  Scraper._scrape_channel converter self c st = (Ok false, st') ->
  Scraper.scrape_loop converter clock self (Datatypes.S fuel) [c] i st
  = Scraper.scrape_loop converter clock self fuel [c] (0 + 1)%nat st'.
Proof.
  intros Hrun. cbn [Scraper.scrape_loop length]. rewrite Nat.mod_1_r.
  cbn [lookup list_lookup]. unfold bind at 1, lift. unfold bind at 1.
  by rewrite Hrun.
Qed.

(** If every round over the only stream of the working set reports that
    more remains, no amount of fuel empties the working set. *)
Lemma scrape_loop_stuck (self : Scraper) (c : Z) (P : State S -> Prop) :
  (forall st, P st ->
     exists st', Scraper._scrape_channel converter self c st = (Ok false, st')
                 /\ P st') ->
  forall fuel i st, P st ->
    exists st',
      Scraper.scrape_loop converter clock self fuel [c] i st = (Ok None, st')
      /\ P st'.
Proof.
  intros Hstep. induction fuel as [|fuel IH]; intros i st HP.
  - exists st. by split.
  - destruct (Hstep st HP) as (st1 & Hrun & HP1).
    rewrite (scrape_loop_step _ _ _ _ _ _ Hrun). apply IH, HP1.
Qed.

End Stuck.


Section Rounds.
Context {S : Type} `{DataStore S}.
Variable converter : MessageConverter.

Lemma mapM_convert_threadless (l : list Message) :
  plain_ok converter ->
  Forall (fun m => has_thread m = false) l ->
  forall st : State S,
    exists rs st1,
      mapM (DataManager.convert_message converter) l st = (Ok rs, st1).
Proof.
  intros Hok Hl. induction Hl as [|m l Hm _ IH]; intros st.
  - by exists [], st.
  - cbn [mapM]. unfold bind at 1.
    unfold DataManager.convert_message at 1, on_authors. rewrite Hm.
    destruct (Hok (data m) (authors st)) as (r & a' & ->).
    unfold bind.
    destruct (IH {| store := store st; authors := a'; ticks := ticks st |})
      as (rs & st1 & ->).
    by eexists _, _.
Qed.

(** A round over a stream whose cursor is set and whose page after the
    cursor is full: when the batch is saved, the round reports that more
    remains. *)
Lemma scrape_channel_more_remains (self : Scraper) (c cursor : Z)
    (channel : Channel) (st st' : State S) :
  truthy (cursor_of (get_frontier c (store st))) = true ->
  as_number (cursor_of (get_frontier c (store st))) = Ok cursor ->
  client self !! c = Some channel ->
  limit self <> 0 ->
  Z.of_nat (length (history_oldest_first channel (limit self) (Some cursor)))
  = limit self ->
  DataManager.save_messages converter
    (history_oldest_first channel (limit self) (Some cursor)) false st
  = (Ok tt, st') ->
  Scraper._scrape_channel converter self c st = (Ok false, st').
Proof.
  intros Htruthy Hcursor Hchannel Hlimit Hfull Hsave.
  unfold Scraper._scrape_channel, DataManager.get_frontier_message,
    DataManager.get_frontier, Scraper.the_channel, Scraper._process_messages,
    bind, gets, lift, ret.
  unfold cursor_of in Htruthy, Hcursor.
  rewrite Htruthy, Hcursor, Hchannel, Hsave, Hfull, Z.eqb_refl.
  by apply Z.eqb_neq in Hlimit as ->.
Qed.

End Rounds.

Lemma SimpleMessageConverter_plain_ok :
  plain_ok SimpleMessageConverter.convert_message.
Proof. intros message a. by eexists _, _. Qed.

Lemma MongoMessageConverter_plain_ok :
  plain_ok MongoMessageConverter.convert_message.
Proof. intros message a. by eexists _, _. Qed.

(** In scenario A every round with [BasicStore] starts from cursor 2 and
    leaves it there. *)
Lemma scenario_A_round_basic (st : State BasicStore.t) :
  get_frontier 1 (store st) = get_frontier 1 (store Scenario.A_basic) ->
  exists st',
    Scraper._scrape_channel SimpleMessageConverter.convert_message
      Scenario.A 1 st = (Ok false, st')
    /\ get_frontier 1 (store st') = get_frontier 1 (store Scenario.A_basic).
Proof.
  intros Hfront.
  set (page := history_oldest_first
                 (Scenario.channel_of
                    (List.map (Scenario.message 1) [1; 2; 3; 4; 5; 6; 7]))
                 (limit Scenario.A) (Some 2)).
  assert (Forall (fun m => has_thread m = false)
                 (List.filter not_marker page)) as Hpage.
  { vm_compute. by repeat constructor. }
  destruct (mapM_convert_threadless SimpleMessageConverter.convert_message
              (List.filter not_marker page) SimpleMessageConverter_plain_ok
              Hpage st) as (rs & st1 & Hconv).
  pose proof (save_messages_eval SimpleMessageConverter.convert_message
                page (Scenario.message 1 5) false st st1 rs _
                eq_refl Hconv eq_refl) as Hsave.
  assert (truthy (cursor_of (get_frontier 1 (store st))) = true) as Htruthy
    by (by rewrite Hfront).
  assert (as_number (cursor_of (get_frontier 1 (store st))) = Ok 2) as Hcursor
    by (by rewrite Hfront).
  pose proof (scrape_channel_more_remains
                SimpleMessageConverter.convert_message Scenario.A 1 2 _ st _
                Htruthy Hcursor eq_refl ltac:(done) eq_refl Hsave) as Hrun.
  eexists. split; [exact Hrun|].
  rewrite <- Hfront.
  rewrite <- (scrape_channel_keeps_frontier
                SimpleMessageConverter.convert_message Scenario.A 1 1 st).
  by rewrite Hrun.
Qed.

(** With [MongoStore] the first round of scenario A reaches a state that
    every further round reproduces. *)
Lemma scenario_A_first_round_mongo :
  Scraper._scrape_channel MongoMessageConverter.convert_message
    Scenario.A 1 Scenario.A_mongo = (Ok false, Scenario.A_mongo_after).
Proof. by vm_compute. Qed.

Lemma scenario_A_round_mongo (st : State MongoStore.t) :
  st = Scenario.A_mongo_after ->
  exists st',
    Scraper._scrape_channel MongoMessageConverter.convert_message
      Scenario.A 1 st = (Ok false, st')
    /\ st' = Scenario.A_mongo_after.
Proof. intros ->. exists Scenario.A_mongo_after. split; [by vm_compute|done]. Qed.

(** C2 (the code departs from it): because the cursor is never advanced
    (see C1), a stream with at least a full page after its cursor is fetched
    from the same cursor in every round. In scenario A (five items after the
    cursor, page size 3) the specification expects the pass to finish after
    two rounds; the loop instead runs out of any amount of fuel, with either
    store. *)
Theorem steady_state_pass_never_finishes (fuel : nat) :
  (Scraper.scrape_all_channels SimpleMessageConverter.convert_message
     Scenario.clock Scenario.A fuel Scenario.A_basic).1 = Ok None
  /\ (Scraper.scrape_all_channels MongoMessageConverter.convert_message
        Scenario.clock Scenario.A fuel Scenario.A_mongo).1 = Ok None.
Proof.
  split.
  - change (Scraper.scrape_all_channels _ _ _ fuel Scenario.A_basic)
      with (Scraper.scrape_loop SimpleMessageConverter.convert_message
              Scenario.clock Scenario.A fuel [1] 0 Scenario.A_basic).
    destruct (scrape_loop_stuck SimpleMessageConverter.convert_message
                Scenario.clock Scenario.A 1 _ scenario_A_round_basic
                fuel 0%nat Scenario.A_basic eq_refl) as (st' & -> & _).
    reflexivity.
  - change (Scraper.scrape_all_channels _ _ _ fuel Scenario.A_mongo)
      with (Scraper.scrape_loop MongoMessageConverter.convert_message
              Scenario.clock Scenario.A fuel [1] 0 Scenario.A_mongo).
    destruct fuel as [|fuel]; [reflexivity|].
    rewrite (scrape_loop_step _ _ _ _ _ _ _ _ scenario_A_first_round_mongo).
    destruct (scrape_loop_stuck MongoMessageConverter.convert_message
                Scenario.clock Scenario.A 1 _ scenario_A_round_mongo
                fuel (0 + 1)%nat Scenario.A_mongo_after eq_refl) as (st' & -> & _).
    reflexivity.
Qed.

(** ** The catch-up pass *)

(** C3 (the code departs from it): in [_scrape_unseen_only] the first known
    item ends the method with [return], before the collected items are
    saved. In scenario C the history delivers [[10; 9; 8; 7; 6]] and 7 is
    known: the specification expects 10, 9 and 8 to be saved; the code
    leaves the whole state as it was, with either store, also when run
    through [scrape_all_unseen]. *)
Theorem catch_up_discards_collected :
  List.map (fun m => id (data m))
    (history_newest_first
       (Scenario.channel_of (List.map (Scenario.message 1) [6; 7; 8; 9; 10])) 5)
  = [10; 9; 8; 7; 6]
  /\ message_exists 7 (store Scenario.C_basic) = Ok true
  /\ Scraper._scrape_unseen_only SimpleMessageConverter.convert_message
       Scenario.C 1 Scenario.C_basic = (Ok tt, Scenario.C_basic)
  /\ message_exists 10 (store Scenario.C_basic) = Ok false
  /\ message_exists 7 (store Scenario.C_mongo) = Ok true
  /\ Scraper._scrape_unseen_only MongoMessageConverter.convert_message
       Scenario.C 1 Scenario.C_mongo = (Ok tt, Scenario.C_mongo)
  /\ message_exists 10 (store Scenario.C_mongo) = Ok false
  /\ Scraper.scrape_all_unseen SimpleMessageConverter.convert_message
       Scenario.clock Scenario.C Scenario.C_basic
     = (Ok tt, tick Scenario.C_basic)
  /\ Scraper.scrape_all_unseen MongoMessageConverter.convert_message
       Scenario.clock Scenario.C Scenario.C_mongo
     = (Ok tt, tick Scenario.C_mongo).
Proof. repeat split; by vm_compute. Qed.

(** ** What the converters return *)

Lemma reference_to_dict_truthy r : truthy (PDict (reference_to_dict r)) = true.
Proof. by destruct r as [[?|] ? [?|]]. Qed.

Lemma reference_to_dict_message_id r :
  dict_lookup (reference_to_dict r) "message_id" = PInt <$> ref_message_id r.
Proof. by destruct r as [[?|] ? [?|]]. Qed.

Lemma MongoMessageConverter_obj message :
  let obj := MongoMessageConverter.with_edited message
               (MongoMessageConverter.with_reference message
                  (MongoMessageConverter.message_obj message)) in
  dict_lookup obj "message_id" = Some (PInt (id message))
  /\ dict_lookup obj "reply_to" = Some (reply_to_of message).
Proof.
  unfold MongoMessageConverter.with_edited,
    MongoMessageConverter.with_reference, reply_to_of.
  destruct (edited_at message), (reference message);
    rewrite ?dict_lookup_set_ne by done; rewrite ?dict_lookup_set_eq; done.
Qed.

Lemma MongoMessageConverter_Ok message thread a u a' :
  MongoMessageConverter.convert_message message thread a = (Ok u, a') ->
  exists obj,
    u = MongoMessageConverter.updater message obj
    /\ dict_lookup obj "message_id" = Some (PInt (id message))
    /\ dict_lookup obj "reply_to" = Some (reply_to_of message).
Proof.
  unfold MongoMessageConverter.convert_message.
  destruct (MongoMessageConverter_obj message) as [Hid Hreply].
  set (obj := MongoMessageConverter.with_edited _ _) in *.
  unfold bind at 1. destruct thread as [t|].
  - unfold bind at 1.
    destruct (convert_history _ t a) as [[ms|e] a1]; [|done].
    intros [= <- _]. eexists. split; [reflexivity|].
    by rewrite !dict_lookup_set_ne.
  - intros [= <- _]. by exists obj.
Qed.

Lemma SimpleMessageConverter_Ok message thread a r a' :
  SimpleMessageConverter.convert_message message thread a = (Ok r, a') ->
  subscript r "message_id" = Ok (PInt (id message)).
Proof.
  unfold SimpleMessageConverter.convert_message.
  assert (dict_lookup (SimpleMessageConverter.with_reference message
                         (SimpleMessageConverter.message_obj message))
                      "message_id" = Some (PInt (id message))) as Hid.
  { unfold SimpleMessageConverter.with_reference.
    destruct (reference message); rewrite ?dict_lookup_set_ne by done; done. }
  set (obj := SimpleMessageConverter.with_reference _ _) in *.
  unfold bind at 1. destruct thread as [t|].
  - unfold bind at 1.
    destruct (convert_history _ t a) as [[ms|e] a1]; [|done].
    intros [= <- _]. unfold subscript.
    by rewrite dict_lookup_set_ne, Hid.
  - intros [= <- _]. unfold subscript. by rewrite Hid.
Qed.

(** ** Saving one updater in [MongoStore] *)

Section MongoSave.
Variable message : MessageData.
Variable obj : dict.
Hypothesis Hid : dict_lookup obj "message_id" = Some (PInt (id message)).
Hypothesis Hreply : dict_lookup obj "reply_to" = Some (reply_to_of message).

Lemma MongoStore_save_single (s : MongoStore.t) :
  MongoStore.save_messages [MongoMessageConverter.updater message obj] s =
  match reference message with
  | None =>
      (Ok tt, {| MongoStore.messages := (upserted message obj (MongoStore.messages s));
                 MongoStore.frontiers := MongoStore.frontiers s |})
  | Some r =>
      match ref_message_id r with
      | None =>
          (Raise (KeyError (PStr "message_id")),
           {| MongoStore.messages := (upserted message obj (MongoStore.messages s));
              MongoStore.frontiers := MongoStore.frontiers s |})
      | Some p =>
          (Ok tt,
           {| MongoStore.messages :=
                Mongo.update_one "message_id" (PInt p)
                  (add_reply (id message))
                  ((upserted message obj (MongoStore.messages s)));
              MongoStore.frontiers := MongoStore.frontiers s |})
      end
  end.
Proof.
  unfold MongoStore.save_messages, bind, lift, MongoStore.on_messages.
  assert (subscript (MongoMessageConverter.updater message obj) "$set" = Ok (PDict obj)) as Hset by reflexivity.
  assert (MongoStore.upsert_request (MongoMessageConverter.updater message obj)
          = Ok {| Mongo.uo_key := "message_id";
                  Mongo.uo_value := PInt (id message);
                  Mongo.uo_update := MongoMessageConverter.update_document message obj |}) as Hreq.
  { unfold MongoStore.upsert_request. rewrite Hset. unfold obind, subscript.
    by rewrite Hid. }
  cbn [traverse]. rewrite Hreq. cbn [obind Mongo.bulk_write fold_left].
  cbn [Mongo.uo_key Mongo.uo_value Mongo.uo_update MongoStore.reply_requests].
  unfold MongoStore.has_reply, MongoStore.reply_request.
  rewrite Hset. unfold obind at 1 2. unfold subscript at 1. rewrite Hreply.
  unfold reply_to_of.
  destruct (reference message) as [r|] eqn:Href; [|reflexivity].
  cbn [obind]. rewrite reference_to_dict_truthy.
  cbn [obind subscript]. rewrite Hreply. unfold reply_to_of. rewrite Href.
  cbn [obind subscript]. rewrite Hid, reference_to_dict_message_id.
  by destruct (ref_message_id r).
Qed.

Lemma MongoStore_save_single_count (s : MongoStore.t) :
  unique_index "message_id" (MongoStore.messages s) ->
  unique_index "message_id"
    (MongoStore.messages (MongoStore.save_messages [MongoMessageConverter.updater message obj] s).2)
  /\ count_docs "message_id" (PInt (id message))
       (MongoStore.messages (MongoStore.save_messages [MongoMessageConverter.updater message obj] s).2) = 1%nat.
Proof.
  intros Hu. rewrite MongoStore_save_single.
  destruct (unique_index_update_one "message_id" (id message)
              (MongoMessageConverter.update_document message obj) _
              (keeps_key_updater _ _ _ Hid) Hu) as [Hu1 Hc1].
  fold (upserted message obj (MongoStore.messages s)) in Hu1, Hc1.
  destruct (reference message) as [r|]; [|done].
  destruct (ref_message_id r) as [p|]; [|done].
  cbn [snd MongoStore.messages].
  destruct (unique_index_update_one "message_id" p (add_reply (id message)) _
              (keeps_key_replies _ _) Hu1) as [Hu2 Hc2].
  split; [done|].
  rewrite count_docs_update_one by apply keeps_key_replies.
  rewrite Hc1. rewrite pyval_eqb_int.
  destruct (p =? id message) eqn:Ep; [|by rewrite andb_false_r].
  apply Z.eqb_eq in Ep. subst p. by rewrite Hc1.
Qed.

End MongoSave.

Lemma MongoStore_message_exists_count i s :
  MongoStore.message_exists i s
  = Ok (negb (Nat.eqb (count_docs "message_id" (PInt i) (MongoStore.messages s)) 0)).
Proof.
  unfold MongoStore.message_exists. f_equal.
  destruct (Nat.eqb _ 0) eqn:E.
  - apply Nat.eqb_eq, find_one_None in E. by rewrite E.
  - apply Nat.eqb_neq in E. apply bool_decide_eq_true_2.
    intros Hn. by apply find_one_None in Hn.
Qed.

(** ** Saving the same item twice *)

Lemma any_message_id_app i l r :
  BasicStore.any_message_id i (l ++ [r]) =
  match BasicStore.any_message_id i l with
  | Ok true => Ok true
  | Ok false => BasicStore.any_message_id i [r]
  | Raise e => Raise e
  end.
Proof.
  induction l as [|x l IH]; [reflexivity|].
  cbn [app BasicStore.any_message_id]. destruct (subscript x "message_id"); [|done].
  cbn [obind]. by destruct (py_eq a (PInt i)).
Qed.

Lemma BasicStore_save_record i r s :
  subscript r "message_id" = Ok (PInt i) ->
  is_ok (BasicStore.message_exists i s) = true ->
  let s' := (BasicStore.save_message r s).2 in
  count_records i s' = Datatypes.S (count_records i s)
  /\ BasicStore.message_exists i s' = Ok true.
Proof.
  intros Hr Hok. cbn [BasicStore.save_message modify snd]. split.
  - unfold count_records. cbn [BasicStore.messages].
    rewrite List.filter_app, length_app. cbn [List.filter].
    rewrite Hr, py_eq_int, Z.eqb_refl. simpl. lia.
  - unfold BasicStore.message_exists in *. cbn [BasicStore.messages].
    rewrite any_message_id_app.
    destruct (BasicStore.any_message_id i (BasicStore.messages s)) as [[]|];
      [done| |done].
    cbn [BasicStore.any_message_id]. rewrite Hr. cbn [obind].
    by rewrite py_eq_int, Z.eqb_refl.
Qed.

(** C5, as stated, fails for [BasicStore]: saving the record of an item twice
    leaves two records for its identifier. *)
Lemma idempotent_save_basic_counterexample :
  let r := PDict (SimpleMessageConverter.message_obj
                    (data (Scenario.message 1 1))) in
  let s1 := (save_message r BasicStore.init).2 in
  let s2 := (save_message r s1).2 in
  count_records 1 s2 = 2%nat /\ count_records 1 s2 <> 1%nat.
Proof. split; [reflexivity|discriminate]. Qed.

(** C5 (amended): with [MongoStore], whose [message_id] index is unique,
    saving the converted item twice leaves exactly one document for its
    identifier and [message_exists] is true after either save; with
    [BasicStore] every save appends a record, so two saves add two records,
    and [message_exists] is true after either save. [save_messages] on the
    one-element list does what [save_message] does. *)
Theorem idempotent_save (message : MessageData) (thread : option Thread)
    (a a1 a2 : gset Z) (u r : pyval) (sm : MongoStore.t) (sb : BasicStore.t) :
  MongoMessageConverter.convert_message message thread a = (Ok u, a1) ->
  SimpleMessageConverter.convert_message message thread a = (Ok r, a2) ->
  unique_index "message_id" (MongoStore.messages sm) ->
  is_ok (message_exists (id message) sb) = true ->
  let sm1 := (save_message u sm).2 in
  let sm2 := (save_message u sm1).2 in
  let sb1 := (save_message r sb).2 in
  let sb2 := (save_message r sb1).2 in
  count_docs "message_id" (PInt (id message)) (MongoStore.messages sm1) = 1%nat
  /\ count_docs "message_id" (PInt (id message)) (MongoStore.messages sm2) = 1%nat
  /\ message_exists (id message) sm1 = Ok true
  /\ message_exists (id message) sm2 = Ok true
  /\ save_messages [u] sm = save_message u sm
  /\ count_records (id message) sb2 = (count_records (id message) sb + 2)%nat
  /\ message_exists (id message) sb1 = Ok true
  /\ message_exists (id message) sb2 = Ok true
  /\ save_messages [r] sb = save_message r sb.
Proof.
  intros Hu Hr Hunique Hok.
  apply MongoMessageConverter_Ok in Hu as (obj & -> & Hid & Hreply).
  apply SimpleMessageConverter_Ok in Hr.
  destruct (MongoStore_save_single_count message obj Hid Hreply sm Hunique)
    as [Hu1 Hc1].
  destruct (MongoStore_save_single_count message obj Hid Hreply _ Hu1)
    as [Hu2 Hc2].
  destruct (BasicStore_save_record (id message) r sb Hr Hok) as [Hb1 He1].
  destruct (BasicStore_save_record (id message) r
              (BasicStore.save_message r sb).2 Hr) as [Hb2 He2].
  { by rewrite He1. }
  cbn zeta in Hb1, Hb2, He2.
  split; [exact Hc1|]. split; [exact Hc2|].
  split; [exact (eq_trans (MongoStore_message_exists_count _ _)
                          (f_equal (fun n => Ok (negb (Nat.eqb n 0))) Hc1))|].
  split; [exact (eq_trans (MongoStore_message_exists_count _ _)
                          (f_equal (fun n => Ok (negb (Nat.eqb n 0))) Hc2))|].
  split; [reflexivity|].
  split.
  { change (count_records (id message)
              (BasicStore.save_message r (BasicStore.save_message r sb).2).2
            = (count_records (id message) sb + 2)%nat).
    rewrite Hb2, Hb1. lia. }
  split; [exact He1|]. split; [exact He2|]. reflexivity.
Qed.

Lemma idempotent_save_witness :
  let message := data (Scenario.message 1 1) in
  let u := MongoMessageConverter.updater message
             (MongoMessageConverter.message_obj message) in
  let sm2 := (save_message u (save_message u MongoStore.init).2).2 in
  count_docs "message_id" (PInt 1) (MongoStore.messages sm2) = 1%nat
  /\ message_exists 1 sm2 = Ok true.
Proof.
  intros message u sm2.
  destruct (idempotent_save message None ∅ _ _ u _ MongoStore.init
              BasicStore.init eq_refl eq_refl) as (_ & Hc & _ & He & _).
  - intros v. vm_compute. lia.
  - reflexivity.
  - exact (conj Hc He).
Defined.

(** ** Reply back-references *)

Lemma MongoStore_message_exists_false i s :
  MongoStore.message_exists i s = Ok false ->
  Mongo.find_one "message_id" (PInt i) (MongoStore.messages s) = None.
Proof.
  unfold MongoStore.message_exists. intros [= Hb].
  apply bool_decide_eq_false_1 in Hb.
  destruct (Mongo.find_one _ _ _); [|done]. by destruct Hb.
Qed.

(** C10: saving, in [MongoStore], the updater of a message that replies to
    an item absent from the store upserts a stub keyed by the parent's
    identifier, holding only the [replies] set; [message_exists] then
    answers true for the parent although its content was never stored, and a
    catch-up pass whose history starts at the parent stops there and saves
    nothing. *)
Theorem reply_creates_phantom_parent (message : MessageData)
    (thread : option Thread) (a a1 : gset Z) (u : pyval) (sm : MongoStore.t)
    (parent : Z) :
  MongoMessageConverter.convert_message message thread a = (Ok u, a1) ->
  parent_of message = Some parent ->
  parent <> id message ->
  message_exists parent sm = Ok false ->
  exists sm',
    save_messages [u] sm = (Ok tt, sm')
    /\ Mongo.find_one "message_id" (PInt parent) (MongoStore.messages sm')
       = Some (stub parent (id message))
    /\ dict_lookup (stub parent (id message)) "message_content" = None
    /\ message_exists parent sm' = Ok true
    /\ (forall converter (self : Scraper) c channel newest rest
               (st : State MongoStore.t),
          store st = sm' ->
          client self !! c = Some channel ->
          history_newest_first channel (limit self) = newest :: rest ->
          id (data newest) = parent ->
          Scraper._scrape_unseen_only converter self c st = (Ok tt, st)).
Proof.
  intros Hu Hparent Hne Habsent.
  apply MongoMessageConverter_Ok in Hu as (obj & -> & Hid & Hreply).
  unfold parent_of in Hparent.
  destruct (reference message) as [r|] eqn:Href; [|done].
  cbn in Hparent.
  change (save_messages [MongoMessageConverter.updater message obj] sm)
    with (MongoStore.save_messages
            [MongoMessageConverter.updater message obj] sm).
  rewrite (MongoStore_save_single message obj Hid Hreply), Href, Hparent.
  apply MongoStore_message_exists_false in Habsent.
  set (c1 := upserted message obj (MongoStore.messages sm)).
  assert (Mongo.find_one "message_id" (PInt parent) c1 = None) as Hc1.
  { apply find_one_update_one_ne; [by apply keeps_key_updater| |done].
    rewrite pyval_eqb_int. apply Z.eqb_neq. congruence. }
  assert (Mongo.find_one "message_id" (PInt parent)
            (Mongo.update_one "message_id" (PInt parent)
               (add_reply (id message)) c1)
          = Some (stub parent (id message))) as Hstub.
  { rewrite find_one_update_one.
    - by rewrite Hc1.
    - apply keeps_key_replies.
    - rewrite pyval_eqb_int. apply Z.eqb_refl. }
  assert (message_exists parent
            {| MongoStore.messages :=
                 Mongo.update_one "message_id" (PInt parent)
                   (add_reply (id message)) c1;
               MongoStore.frontiers := MongoStore.frontiers sm |}
          = Ok true) as Hexists.
  { cbn. unfold MongoStore.message_exists. cbn [MongoStore.messages].
    by rewrite Hstub. }
  eexists. split; [reflexivity|]. split; [exact Hstub|].
  split; [reflexivity|]. split; [exact Hexists|].
  intros converter self c channel newest rest st Hstore Hchannel Hhistory Hnewest.
  unfold Scraper._scrape_unseen_only, Scraper.the_channel, bind at 1, lift.
  rewrite Hchannel, Hhistory. cbn [Scraper.collect_unseen].
  unfold bind, DataManager.message_exists.
  by rewrite Hstore, Hnewest, Hexists.
Qed.

Lemma reply_creates_phantom_parent_witness :
  exists sm',
    save_messages
      [MongoMessageConverter.updater (data (Scenario.reply_to 2 6 1 5))
         (MongoMessageConverter.with_reference
            (data (Scenario.reply_to 2 6 1 5))
            (MongoMessageConverter.message_obj
               (data (Scenario.reply_to 2 6 1 5))))]
      MongoStore.init = (Ok tt, sm')
    /\ message_exists 5 sm' = Ok true
    /\ Scraper._scrape_unseen_only MongoMessageConverter.convert_message
         (Scenario.scraper [Scenario.message 1 5] 5) 1 (Scenario.start sm')
       = (Ok tt, Scenario.start sm').
Proof.
  destruct (reply_creates_phantom_parent (data (Scenario.reply_to 2 6 1 5))
              None ∅ _ _ MongoStore.init 5 eq_refl eq_refl)
    as (sm' & Hsave & _ & _ & Hexists & Hstop).
  - simpl. lia.
  - reflexivity.
  - exists sm'. split; [exact Hsave|]. split; [exact Hexists|].
    eapply Hstop; reflexivity.
Defined.

(** * Further properties of the code *)

(** ** Running the monad *)

Lemma bind_Ok {St A B} (c : M St A) (k : A -> M St B) st b st' :
  bind c k st = (Ok b, st') ->
  exists a st1, c st = (Ok a, st1) /\ k a st1 = (Ok b, st').
Proof.
  unfold bind. destruct (c st) as [[a|e] st1]; [|done]. eauto.
Qed.

Lemma bind_eval {St A B} (c : M St A) (k : A -> M St B) st a st1 :
  c st = (Ok a, st1) -> bind c k st = k a st1.
Proof. unfold bind. by intros ->. Qed.

Lemma bind_Raise {St A B} (c : M St A) (k : A -> M St B) st e st1 :
  c st = (Raise e, st1) -> bind c k st = (Raise e, st1).
Proof. unfold bind. by intros ->. Qed.

(** ** Frontier bookkeeping *)

Section FrontierBookkeeping.
Context {S : Type} `{DataStoreLaws S}.
Variable clock : nat -> Q.

Lemma get_frontier_message_eval (c : Z) (st : State S) :
  DataManager.get_frontier_message c st =
  (let mid := cursor_of (get_frontier c (store st)) in
   if truthy mid then
     match as_number mid with Ok i => Ok (Some i) | Raise e => Raise e end
   else Ok None, st).
Proof.
  unfold DataManager.get_frontier_message, DataManager.get_frontier,
    bind, gets, lift, ret, cursor_of.
  destruct (truthy _); [|done]. by destruct (as_number _).
Qed.

End FrontierBookkeeping.

Lemma finish_frontier_post {S : Type} `{DataStoreLaws S}
    (clock : nat -> Q) (c : Z) (st : State S) :
  exists st1,
    DataManager.finish_frontier clock c st = (Ok tt, st1)
    /\ cursor_of (get_frontier c (store st1)) = PNone
    /\ previous_scan_time_of (get_frontier c (store st1))
       = PInt (py_int (clock (ticks st)))
    /\ DataManager.get_frontier_message c st1 = (Ok None, st1)
    /\ authors st1 = authors st
    /\ ticks st1 = Datatypes.S (ticks st).
Proof.
  eexists. split; [apply finish_frontier_eval|].
  set (front2 := dict_set _ "previous_scan_time" _).
  assert (dict_lookup (get_frontier c (set_frontier c front2 (store st))) "id"
          = Some PNone) as Hid.
  { apply set_frontier_lookup; unfold front2.
    - by rewrite !dict_lookup_set_ne.
    - rewrite dict_lookup_set_ne by done. apply dict_lookup_set_eq. }
  assert (dict_lookup (get_frontier c (set_frontier c front2 (store st)))
            "previous_scan_time" = Some (PInt (py_int (clock (ticks st)))))
    as Hpst.
  { apply set_frontier_lookup; unfold front2.
    - by rewrite !dict_lookup_set_ne.
    - apply dict_lookup_set_eq. }
  cbn [store authors ticks].
  assert (cursor_of (get_frontier c (set_frontier c front2 (store st))) = PNone)
    as Hcursor by (unfold cursor_of, dict_get; by rewrite Hid).
  split; [exact Hcursor|]. split.
  { unfold previous_scan_time_of, dict_get. by rewrite Hpst. }
  split; [|done].
  rewrite get_frontier_message_eval. cbn [store]. by rewrite Hcursor.
Qed.

(** X1: [finish_frontier] marks the pass complete: it returns normally, the
    stored cursor is [None] afterwards (so [get_frontier_message] finds no
    cursor) and [previous_scan_time] is [int] of the clock reading it took.
    It reads the clock once and leaves the [authors] set alone. *)
Theorem finish_frontier_marks_complete {S : Type} `{DataStoreLaws S}
    (clock : nat -> Q) (c : Z) (st : State S) :
  exists st1,
    DataManager.finish_frontier clock c st = (Ok tt, st1)
    /\ cursor_of (get_frontier c (store st1)) = PNone
    /\ previous_scan_time_of (get_frontier c (store st1))
       = PInt (py_int (clock (ticks st)))
    /\ DataManager.get_frontier_message c st1 = (Ok None, st1)
    /\ authors st1 = authors st
    /\ ticks st1 = Datatypes.S (ticks st).
Proof. apply finish_frontier_post. Qed.

Lemma finish_frontier_marks_complete_witness :
  exists st1,
    DataManager.finish_frontier Scenario.clock 1 Scenario.A_mongo = (Ok tt, st1)
    /\ cursor_of (get_frontier 1 (store st1)) = PNone
    /\ previous_scan_time_of (get_frontier 1 (store st1)) = PInt 1000.
Proof.
  destruct (finish_frontier_marks_complete Scenario.clock 1 Scenario.A_mongo)
    as (st1 & Hrun & Hcursor & Hpst & _).
  exists st1. split; [exact Hrun|]. split; [exact Hcursor|].
  rewrite Hpst. reflexivity.
Defined.

(** X2: the cursor written by [update_frontier] is the one
    [get_frontier_message] reads back, except for the identifier 0, which
    [if mid:] takes for "no cursor". *)
Theorem update_frontier_read_back {S : Type} `{DataStoreLaws S}
    (c i : Z) (st : State S) :
  let st' := with_store st (update_frontier c i (store st)) in
  DataManager.get_frontier_message c st'
  = (Ok (if i =? 0 then None else Some i), st').
Proof.
  intros st'. rewrite get_frontier_message_eval. unfold st'. cbn [store with_store].
  unfold cursor_of, dict_get. rewrite update_frontier_cursor. cbn.
  by destruct (i =? 0).
Qed.

Lemma update_frontier_read_back_witness :
  (DataManager.get_frontier_message 1
     (with_store (Scenario.start BasicStore.init)
        (update_frontier 1 5 BasicStore.init))).1 = Ok (Some 5)
  /\ (DataManager.get_frontier_message 1
        (with_store (Scenario.start MongoStore.init)
           (update_frontier 1 0 MongoStore.init))).1 = Ok None.
Proof.
  split.
  - exact (f_equal fst (update_frontier_read_back 1 5
                          (Scenario.start BasicStore.init))).
  - exact (f_equal fst (update_frontier_read_back 1 0
                          (Scenario.start MongoStore.init))).
Defined.

Lemma find_one_update_one_other key z upd w c :
  keeps_key key (PInt z) upd ->
  pyval_eqb (PInt z) w = false ->
  Mongo.find_one key w (Mongo.update_one key (PInt z) upd c)
  = Mongo.find_one key w c.
Proof.
  intros [Hupd Hins] Hne. unfold Mongo.find_one.
  induction c as [|d c IH]; cbn [Mongo.update_one List.find].
  - unfold Mongo.doc_matches at 1. by rewrite Hins, Hne.
  - destruct (Mongo.doc_matches key (PInt z) d) eqn:Hd; cbn [List.find].
    + assert (Mongo.doc_matches key w d = false) as Hwd.
      { apply doc_matches_int in Hd. unfold Mongo.doc_matches. by rewrite Hd. }
      assert (Mongo.doc_matches key w (Mongo.apply_update upd false d) = false)
        as ->.
      { unfold Mongo.doc_matches in *. by rewrite Hupd. }
      by rewrite Hwd.
    + by destruct (Mongo.doc_matches key w d).
Qed.

Lemma MongoStore_get_frontier_other c c' data s :
  c <> c' ->
  (dict_lookup data "channel_id" = None
   \/ dict_lookup data "channel_id" = Some (PInt c)) ->
  MongoStore.get_frontier c'
    {| MongoStore.messages := MongoStore.messages s;
       MongoStore.frontiers :=
         Mongo.update_one "channel_id" (PInt c) [("$set", PDict data)]
           (MongoStore.frontiers s) |}
  = MongoStore.get_frontier c' s.
Proof.
  intros Hne Hdata. unfold MongoStore.get_frontier. cbn [MongoStore.frontiers].
  rewrite find_one_update_one_other; [done|by apply keeps_key_set|].
  rewrite pyval_eqb_int. by apply Z.eqb_neq.
Qed.

(** X3: the frontier of one channel is independent of the others: neither
    [update_frontier] nor [finish_frontier] on channel [c] changes what
    [get_frontier] returns for another channel, with either store, and
    neither touches the stored messages. *)
Theorem frontier_isolation (clock : nat -> Q) (c c' i : Z)
    (stb : State BasicStore.t) (stm : State MongoStore.t) :
  c <> c' ->
  get_frontier c' (update_frontier c i (store stb)) = get_frontier c' (store stb)
  /\ get_frontier c' (update_frontier c i (store stm))
     = get_frontier c' (store stm)
  /\ get_frontier c' (store (DataManager.finish_frontier clock c stb).2)
     = get_frontier c' (store stb)
  /\ get_frontier c' (store (DataManager.finish_frontier clock c stm).2)
     = get_frontier c' (store stm)
  /\ BasicStore.messages (store (DataManager.finish_frontier clock c stb).2)
     = BasicStore.messages (store stb)
  /\ MongoStore.messages (store (DataManager.finish_frontier clock c stm).2)
     = MongoStore.messages (store stm).
Proof.
  intros Hne. repeat split.
  - cbn. unfold BasicStore.get_frontier, BasicStore.update_frontier.
    cbn [BasicStore.frontier]. by rewrite lookup_insert_ne.
  - cbn. unfold MongoStore.update_frontier.
    apply MongoStore_get_frontier_other; [done|by left].
  - rewrite finish_frontier_eval. cbn.
    unfold BasicStore.get_frontier at 1, BasicStore.set_frontier.
    cbn [BasicStore.frontier]. by rewrite lookup_insert_ne.
  - rewrite finish_frontier_eval. cbn [snd store].
    change (MongoStore.get_frontier c'
              (MongoStore.set_frontier c
                 (dict_set (dict_set (MongoStore.get_frontier c (store stm))
                                     "id" PNone)
                    "previous_scan_time" (PInt (py_int (clock (ticks stm)))))
                 (store stm))
            = MongoStore.get_frontier c' (store stm)).
    unfold MongoStore.set_frontier.
    apply MongoStore_get_frontier_other; [done|].
    rewrite !dict_lookup_set_ne by done.
    apply MongoStore_get_frontier_channel.
Qed.

Lemma frontier_isolation_witness :
  get_frontier 2 (store (DataManager.finish_frontier Scenario.clock 1
                           Scenario.A_mongo).2)
  = get_frontier 2 (store Scenario.A_mongo).
Proof.
  destruct (frontier_isolation Scenario.clock 1 2 0 Scenario.A_basic
              Scenario.A_mongo) as (_ & _ & _ & Hm & _).
  - lia.
  - exact Hm.
Defined.

(** ** Targets *)

Lemma init_rescan_interval (chans : list Z) (c : Z) :
  rescan_interval (DataManager.init chans) !! c
  = if bool_decide (c ∈ chans) then Some 60 else None.
Proof.
  unfold DataManager.init. cbn [rescan_interval].
  induction chans as [|x chans IH]; [done|].
  cbn [List.map list_to_map foldr]. cbn [fst snd].
  destruct (decide (x = c)) as [->|Hne].
  - rewrite lookup_insert_eq.
    by rewrite (bool_decide_eq_true_2 (c ∈ c :: chans))
      by (apply elem_of_cons; auto).
  - rewrite lookup_insert_ne by done. rewrite IH.
    destruct (bool_decide (c ∈ chans)) eqn:B.
    + apply bool_decide_eq_true_1 in B.
      by rewrite (bool_decide_eq_true_2 (c ∈ x :: chans))
        by (apply elem_of_cons; auto).
    + apply bool_decide_eq_false_1 in B.
      rewrite (bool_decide_eq_false_2 (c ∈ x :: chans)); [done|].
      rewrite elem_of_cons. intros [?|?]; congruence.
Qed.

(** X4: a [DataManager] built by [__init__] gives every target channel the
    rescan interval 60 and no other channel any: [should_rescan] on a
    channel outside the target list raises [KeyError] (after reading the
    clock), and on a target channel with a numeric [previous_scan_time] it
    compares against [now - 60]. *)
Theorem should_rescan_needs_target {S : Type} `{DataStore S}
    (clock : nat -> Q) (chans : list Z) (c : Z) (st : State S) :
  (c ∉ chans ->
   DataManager.should_rescan clock (DataManager.init chans) c st
   = (Raise (KeyError (PInt c)), tick st))
  /\ (c ∈ chans ->
      forall ts,
        as_number (previous_scan_time_of (get_frontier c (store st))) = Ok ts ->
        DataManager.should_rescan clock (DataManager.init chans) c st
        = (Ok (Qlt_bool (inject_Z ts) (clock (ticks st) - inject_Z 60)),
           tick st)).
Proof.
  split.
  - intros Hout.
    unfold DataManager.should_rescan, DataManager.get_frontier,
      DataManager.time_time, bind, gets, lift.
    by rewrite init_rescan_interval, bool_decide_eq_false_2.
  - intros Hin ts Hts. apply should_rescan_eval; [|done].
    by rewrite init_rescan_interval, bool_decide_eq_true_2.
Qed.

Lemma should_rescan_needs_target_witness :
  DataManager.should_rescan Scenario.clock (DataManager.init [1; 2]) 3
    (Scenario.start BasicStore.init)
  = (Raise (KeyError (PInt 3)), tick (Scenario.start BasicStore.init))
  /\ (DataManager.should_rescan Scenario.clock (DataManager.init [1; 2]) 2
        (Scenario.start BasicStore.init)).1 = Ok true.
Proof.
  destruct (should_rescan_needs_target Scenario.clock [1; 2] 3
              (Scenario.start BasicStore.init)) as [Hout _].
  destruct (should_rescan_needs_target Scenario.clock [1; 2] 2
              (Scenario.start BasicStore.init)) as [_ Hin].
  split.
  - apply Hout. compute_done.
  - rewrite (Hin ltac:(compute_done) 0 eq_refl). reflexivity.
Defined.

Section Targets.
Context {S : Type} `{DataStore S}.
Variable clock : nat -> Q.

Lemma should_rescan_state (dm : DataManager) (c : Z) (st st' : State S) o :
  DataManager.should_rescan clock dm c st = (o, st') -> st' = tick st.
Proof.
  unfold DataManager.should_rescan, DataManager.get_frontier,
    DataManager.time_time, bind, gets, lift, ret.
  destruct (rescan_interval dm !! c); cbn.
  - destruct (as_number _); intros Heq; congruence.
  - intros Heq; congruence.
Qed.

Lemma targets_of_spec (dm : DataManager) (l : list Z) :
  forall (st st' : State S) (targets : list Z),
    DataManager.targets_of clock dm l st = (Ok targets, st') ->
    targets `sublist_of` l
    /\ store st' = store st
    /\ authors st' = authors st
    /\ (forall c, c ∈ l ->
          truthy (cursor_of (get_frontier c (store st))) = true ->
          c ∈ targets).
Proof.
  induction l as [|x l IH]; intros st st' targets.
  - intros [= <- <-]. repeat split; [done|].
    intros c Hc. by apply elem_of_nil in Hc.
  - cbn [DataManager.targets_of]. intros Hrun.
    apply bind_Ok in Hrun as (fm & st0 & Hfm & Hrun).
    pose proof (get_frontier_message_state _ _ _ _ Hfm) as ->.
    rewrite get_frontier_message_eval in Hfm. cbv zeta in Hfm.
    apply bind_Ok in Hrun as (keep & st1 & Hkeep & Hrun).
    apply bind_Ok in Hrun as (rest & st2 & Hrest & Hret).
    injection Hret as <- <-.
    apply IH in Hrest as (Hsub & Hs & Ha & Hin).
    assert (store st1 = store st /\ authors st1 = authors st) as [Hs1 Ha1].
    { destruct fm; [by injection Hkeep as _ <-|].
      apply should_rescan_state in Hkeep. by subst st1. }
    assert (truthy (cursor_of (get_frontier x (store st))) = true ->
            keep = true) as Hx.
    { intros Htruthy. rewrite Htruthy in Hfm.
      destruct (as_number _); [|done]. injection Hfm as <-.
      by injection Hkeep as <- _. }
    repeat split; [|congruence|congruence|].
    + destruct keep; by constructor.
    + intros c Hc Hcur. apply elem_of_cons in Hc as [->|Hc].
      * rewrite (Hx Hcur). apply elem_of_cons. by left.
      * rewrite <- Hs1 in Hcur. specialize (Hin c Hc Hcur).
        destruct keep; [apply elem_of_cons; by right|done].
Qed.

End Targets.

(** X5: when [get_targets] returns, its result is a sub-list of
    [self.channels] in the same order, it contains every channel whose
    stored cursor is set (a pass is under way), and neither the store nor
    the [authors] set has changed. *)
Theorem get_targets_sound {S : Type} `{DataStore S} (clock : nat -> Q)
    (dm : DataManager) (st st' : State S) (targets : list Z) :
  DataManager.get_targets clock dm st = (Ok targets, st') ->
  targets `sublist_of` channels dm
  /\ store st' = store st
  /\ authors st' = authors st
  /\ (forall c, c ∈ channels dm ->
        truthy (cursor_of (get_frontier c (store st))) = true ->
        c ∈ targets).
Proof. apply targets_of_spec. Qed.

Lemma get_targets_sound_witness :
  [1] `sublist_of` channels (DataManager.init [1])
  /\ store Scenario.A_mongo = store Scenario.A_mongo.
Proof.
  destruct (get_targets_sound Scenario.clock (DataManager.init [1])
              Scenario.A_mongo Scenario.A_mongo [1])
    as (Hsub & Hs & _); [by vm_compute|].
  exact (conj Hsub Hs).
Defined.

(** ** Live items and the catch-up pass *)

Section LivePath.
Context {S : Type} `{DataStoreLaws S}.
Variable converter : MessageConverter.
Variable clock : nat -> Q.

Lemma save_message_keeps_frontier (message : Message) (c : Z)
    (st st' : State S) o :
  DataManager.save_message converter message false st = (o, st') ->
  get_frontier c (store st') = get_frontier c (store st).
Proof.
  unfold DataManager.save_message.
  destruct (is_thread_created message); cbn [negb].
  - by intros [= _ <-].
  - unfold bind at 1. unfold bind at 1.
    destruct (DataManager.convert_message converter message st)
      as [[r|e] st0] eqn:Hconv;
      apply convert_message_store in Hconv as [Hs _].
    + unfold on_store at 1.
      pose proof (save_message_frontier r (store st0) c) as Hsave.
      destruct (save_message r (store st0)) as [[[]|e] s1]; cbn [snd] in Hsave;
        intros [= _ <-]; cbn [store]; congruence.
    + intros [= _ <-]. congruence.
Qed.

Lemma collect_unseen_state (delivered : list Message) :
  forall (msgs : list Message) (st st' : State S) o,
    Scraper.collect_unseen delivered msgs st = (o, st') -> st' = st.
Proof.
  induction delivered as [|m delivered IH]; intros msgs st st' o.
  - by intros [= _ <-].
  - cbn [Scraper.collect_unseen]. unfold bind, DataManager.message_exists.
    destruct (message_exists (id (data m)) (store st)) as [[]|e].
    + by intros [= _ <-].
    + apply IH.
    + by intros [= _ <-].
Qed.

Lemma scrape_unseen_only_keeps_frontier (self : Scraper) (c c' : Z)
    (st st' : State S) o :
  Scraper._scrape_unseen_only converter self c st = (o, st') ->
  get_frontier c' (store st') = get_frontier c' (store st).
Proof.
  unfold Scraper._scrape_unseen_only, Scraper.the_channel, bind at 1, lift.
  destruct (client self !! c) as [channel|]; [|by intros [= _ <-]].
  unfold bind at 1.
  destruct (Scraper.collect_unseen _ _ st) as [[collected|e] st0] eqn:Hcollect;
    apply collect_unseen_state in Hcollect; subst st0;
    [|by intros [= _ <-]].
  destruct collected as [msgs|]; [|by intros [= _ <-]].
  apply save_messages_keeps_frontier.
Qed.

Lemma unseen_in_keeps_frontier (self : Scraper) (c' : Z) (l : list Z) :
  forall (st st' : State S) o,
    Scraper.unseen_in converter clock self l st = (o, st') ->
    get_frontier c' (store st') = get_frontier c' (store st).
Proof.
  induction l as [|c l IH]; intros st st' o.
  - by intros [= _ <-].
  - cbn [Scraper.unseen_in]. unfold bind at 1.
    destruct (DataManager.should_rescan clock (data_manager self) c st)
      as [[due|e] st0] eqn:Hdue;
      apply should_rescan_state in Hdue; subst st0;
      [|by intros [= _ <-]].
    unfold bind at 1. destruct due.
    + unfold ret at 1. intros Hrest. by apply IH in Hrest.
    + destruct (Scraper._scrape_unseen_only converter self c (tick st))
        as [[[]|e] st1] eqn:Hone;
        apply (scrape_unseen_only_keeps_frontier _ _ c') in Hone.
      * intros Hrest. apply IH in Hrest. cbn [tick store] in Hone. congruence.
      * intros [= _ <-]. exact Hone.
Qed.

End LivePath.

(** X6: the [on_message] listener ignores items of channels that are not
    tracked and structural markers (the state is left as it is), and for
    every item it leaves every frontier as it was: live items never move a
    cursor. *)
Theorem on_message_never_moves_cursor {S : Type} `{DataStoreLaws S}
    (converter : MessageConverter) (self : Scraper) (message : Message)
    (st : State S) :
  (channel_id (data message) ∉ channels (data_manager self) ->
   Scraper.on_message converter self message st = (Ok tt, st))
  /\ (is_thread_created message = true ->
      Scraper.on_message converter self message st = (Ok tt, st))
  /\ (forall c,
        get_frontier c (store (Scraper.on_message converter self message st).2)
        = get_frontier c (store st)).
Proof.
  unfold Scraper.on_message, Scraper._process_message. repeat split.
  - intros Hout. by rewrite bool_decide_eq_false_2.
  - intros Hmarker. destruct (bool_decide _); [|done].
    unfold DataManager.save_message. by rewrite Hmarker.
  - intros c. destruct (bool_decide _); [|done].
    destruct (DataManager.save_message _ _ _ _) as [o st'] eqn:Hsave.
    by apply (save_message_keeps_frontier _ _ c) in Hsave.
Qed.

Lemma on_message_never_moves_cursor_witness :
  Scraper.on_message MongoMessageConverter.convert_message Scenario.A
    (Scenario.message 9 1) Scenario.A_mongo = (Ok tt, Scenario.A_mongo)
  /\ get_frontier 1
       (store (Scraper.on_message MongoMessageConverter.convert_message
                 Scenario.A (Scenario.message 1 8) Scenario.A_mongo).2)
     = get_frontier 1 (store Scenario.A_mongo).
Proof.
  destruct (on_message_never_moves_cursor
              MongoMessageConverter.convert_message Scenario.A
              (Scenario.message 9 1) Scenario.A_mongo) as (Hout & _ & _).
  destruct (on_message_never_moves_cursor
              MongoMessageConverter.convert_message Scenario.A
              (Scenario.message 1 8) Scenario.A_mongo) as (_ & _ & Hfront).
  split; [apply Hout; compute_done|apply Hfront].
Defined.

(** X7: the catch-up pass never touches a frontier: whatever
    [_scrape_unseen_only] and [scrape_all_unseen] do and however they end,
    [get_frontier] returns afterwards what it returned before, for every
    channel. *)
Theorem catch_up_keeps_frontiers {S : Type} `{DataStoreLaws S}
    (converter : MessageConverter) (clock : nat -> Q) (self : Scraper)
    (c c' : Z) (st : State S) :
  get_frontier c'
    (store (Scraper._scrape_unseen_only converter self c st).2)
  = get_frontier c' (store st)
  /\ get_frontier c'
       (store (Scraper.scrape_all_unseen converter clock self st).2)
     = get_frontier c' (store st).
Proof.
  split.
  - destruct (Scraper._scrape_unseen_only converter self c st) as [o st'] eqn:E.
    by apply (scrape_unseen_only_keeps_frontier _ _ _ c') in E.
  - unfold Scraper.scrape_all_unseen.
    destruct (Scraper.unseen_in _ _ _ _ st) as [o st'] eqn:E.
    by apply (unseen_in_keeps_frontier _ _ _ c') in E.
Qed.

Lemma catch_up_keeps_frontiers_witness :
  get_frontier 1
    (store (Scraper.scrape_all_unseen MongoMessageConverter.convert_message
              Scenario.clock Scenario.C Scenario.C_mongo).2)
  = get_frontier 1 (store Scenario.C_mongo).
Proof.
  exact (proj2 (catch_up_keeps_frontiers MongoMessageConverter.convert_message
                  Scenario.clock Scenario.C 1 1 Scenario.C_mongo)).
Defined.

Section CatchUp.
Context {S : Type} `{DataStore S}.
Variable converter : MessageConverter.

Lemma collect_unseen_all_unknown (delivered : list Message) (st : State S) :
  Forall (fun m => message_exists (id (data m)) (store st) = Ok false)
         delivered ->
  forall msgs,
    Scraper.collect_unseen delivered msgs st
    = (Ok (Some (msgs ++ delivered)%list), st).
Proof.
  induction 1 as [|m delivered Hm _ IH]; intros msgs.
  - cbn. by rewrite app_nil_r.
  - cbn [Scraper.collect_unseen]. unfold bind, DataManager.message_exists.
    rewrite Hm, IH. by rewrite <- app_assoc.
Qed.

End CatchUp.

(** X8: when none of the items that the history delivers is known to the
    store, [_scrape_unseen_only] saves all of them in one batch, in the
    order delivered (newest first) and without moving the cursor; the batch
    never holds more than [limit] items. *)
Theorem catch_up_saves_unseen {S : Type} `{DataStore S}
    (converter : MessageConverter) (self : Scraper) (c : Z)
    (channel : Channel) (st : State S) :
  client self !! c = Some channel ->
  Forall (fun m => message_exists (id (data m)) (store st) = Ok false)
         (history_newest_first channel (limit self)) ->
  Scraper._scrape_unseen_only converter self c st
  = DataManager.save_messages converter
      (history_newest_first channel (limit self)) false st
  /\ (length (history_newest_first channel (limit self))
      <= Z.to_nat (limit self))%nat.
Proof.
  intros Hchannel Hunknown. split.
  - unfold Scraper._scrape_unseen_only, Scraper.the_channel, bind at 1, lift.
    rewrite Hchannel. unfold bind at 1.
    by rewrite (collect_unseen_all_unknown _ _ Hunknown).
  - unfold history_newest_first. rewrite length_take. lia.
Qed.

Lemma catch_up_saves_unseen_witness :
  (Scraper._scrape_unseen_only SimpleMessageConverter.convert_message
     Scenario.C 1 (Scenario.start BasicStore.init)).1 = Ok tt
  /\ message_exists 10
       (store (Scraper._scrape_unseen_only
                 SimpleMessageConverter.convert_message
                 Scenario.C 1 (Scenario.start BasicStore.init)).2) = Ok true.
Proof.
  destruct (catch_up_saves_unseen SimpleMessageConverter.convert_message
              Scenario.C 1 _ (Scenario.start BasicStore.init) eq_refl)
    as [-> _].
  - vm_compute. by repeat constructor.
  - split; reflexivity.
Defined.

(** ** MongoStore: partial writes and the unique index *)

(** X9: in [MongoStore], saving the updater of a message whose reference
    carries no [message_id] (the library leaves the key out of
    [to_dict()]) raises [KeyError] while the reply back-references are being
    built, after the message itself has been written: the call fails, yet
    [message_exists] is true for the message afterwards. The frontiers
    are not touched. *)
Theorem reply_without_message_id_partial_write (message : MessageData)
    (thread : option Thread) (a a1 : gset Z) (u : pyval) (r : MessageReference)
    (sm : MongoStore.t) :
  MongoMessageConverter.convert_message message thread a = (Ok u, a1) ->
  reference message = Some r ->
  ref_message_id r = None ->
  exists sm',
    save_messages [u] sm = (Raise (KeyError (PStr "message_id")), sm')
    /\ message_exists (id message) sm' = Ok true
    /\ MongoStore.frontiers sm' = MongoStore.frontiers sm.
Proof.
  intros Hu Href Hnone.
  apply MongoMessageConverter_Ok in Hu as (obj & -> & Hid & Hreply).
  change (save_messages [MongoMessageConverter.updater message obj] sm)
    with (MongoStore.save_messages
            [MongoMessageConverter.updater message obj] sm).
  rewrite (MongoStore_save_single message obj Hid Hreply), Href, Hnone.
  eexists. split; [reflexivity|]. split; [|reflexivity].
  cbn. unfold MongoStore.message_exists, upserted. cbn [MongoStore.messages].
  rewrite find_one_update_one.
  - done.
  - by apply keeps_key_updater.
  - rewrite pyval_eqb_int. apply Z.eqb_refl.
Qed.

Lemma reply_without_message_id_partial_write_witness :
  let message :=
    {| id := 6; channel_id := 1; channel_type := "news";
       type := channel_follow_add; content := "follow"; created_at := 6;
       edited_at := None; attachments := []; embeds := []; author_id := 7;
       reference := Some {| ref_message_id := None; ref_channel_id := 2;
                            ref_guild_id := Some 3 |} |} in
  exists u sm',
    save_messages [u] MongoStore.init
    = (Raise (KeyError (PStr "message_id")), sm')
    /\ message_exists 6 sm' = Ok true.
Proof.
  intros message.
  edestruct (reply_without_message_id_partial_write message None ∅)
    with (sm := MongoStore.init) as (sm' & Hsave & Hexists & _);
    [reflexivity | reflexivity | reflexivity |].
  eexists _, sm'. exact (conj Hsave Hexists).
Defined.

Lemma traverse_upsert_requests (l : list pyval) :
  Forall is_updater l ->
  exists requests,
    traverse MongoStore.upsert_request l = Ok requests
    /\ Forall keyed_request requests.
Proof.
  induction 1 as [|u l (message & obj & -> & Hid & Hreply) _ (reqs & IH & Hreqs)].
  - by exists [].
  - cbn [traverse]. rewrite IH.
    assert (MongoStore.upsert_request (MongoMessageConverter.updater message obj)
            = Ok {| Mongo.uo_key := "message_id";
                    Mongo.uo_value := PInt (id message);
                    Mongo.uo_update :=
                      MongoMessageConverter.update_document message obj |})
      as ->.
    { unfold MongoStore.upsert_request, MongoMessageConverter.updater.
      cbn [subscript MongoMessageConverter.update_document dict_lookup
           String.eqb Ascii.eqb Bool.eqb obind]. by rewrite Hid. }
    eexists. split; [reflexivity|]. constructor; [|done].
    split; [done|]. eexists. split; [done|]. by apply keeps_key_updater.
Qed.

Lemma reply_requests_keyed (l : list pyval) :
  Forall is_updater l ->
  forall replies,
    MongoStore.reply_requests l = Ok replies -> Forall keyed_request replies.
Proof.
  induction 1 as [|u l (message & obj & -> & Hid & Hreply) _ IH];
    intros replies.
  - by intros [= <-].
  - cbn [MongoStore.reply_requests].
    unfold MongoStore.has_reply, MongoStore.reply_request,
      MongoMessageConverter.updater.
    cbn [subscript MongoMessageConverter.update_document dict_lookup
         String.eqb Ascii.eqb Bool.eqb obind].
    rewrite Hreply. cbn [obind]. unfold reply_to_of.
    destruct (reference message) as [r|]; [|apply IH].
    rewrite reference_to_dict_truthy.
    cbn [subscript obind]. rewrite reference_to_dict_message_id, Hid.
    destruct (ref_message_id r) as [p|]; cbn [fmap option_fmap option_map obind];
      [|done].
    destruct (MongoStore.reply_requests l) as [rs|e]; cbn [obind]; [|done].
    intros [= <-]. constructor; [|by apply IH].
    split; [done|]. eexists. split; [done|]. apply keeps_key_replies.
Qed.

Lemma bulk_write_unique (requests : list Mongo.UpdateOne) :
  Forall keyed_request requests ->
  forall c,
    unique_index "message_id" c ->
    unique_index "message_id" (Mongo.bulk_write requests c).2.
Proof.
  intros Hreqs c Hc. destruct requests as [|r0 requests]; [done|].
  unfold Mongo.bulk_write. cbn [snd]. revert c Hc.
  induction Hreqs as [|r reqs (Hkey & z & Hval & Hkeeps) _ IH]; intros c Hc;
    [done|].
  cbn [fold_left]. apply IH. rewrite Hkey, Hval.
  by apply unique_index_update_one.
Qed.

Lemma MongoStore_save_messages_unique (l : list pyval) (s : MongoStore.t) :
  Forall is_updater l ->
  unique_index "message_id" (MongoStore.messages s) ->
  unique_index "message_id"
    (MongoStore.messages (MongoStore.save_messages l s).2).
Proof.
  intros Hl Hs.
  destruct (traverse_upsert_requests l Hl) as (requests & Hreq & Hkeyed).
  pose proof (reply_requests_keyed l Hl) as Hreplies.
  unfold MongoStore.save_messages, bind, lift, MongoStore.on_messages.
  rewrite Hreq.
  pose proof (bulk_write_unique requests Hkeyed _ Hs) as H1.
  destruct (Mongo.bulk_write requests (MongoStore.messages s)) as [[[]|e] c1];
    cbn [snd] in H1; [|done].
  destruct (MongoStore.reply_requests l) as [replies|e]; [|done].
  specialize (Hreplies replies eq_refl).
  destruct replies as [|r replies]; [done|].
  pose proof (bulk_write_unique (r :: replies) Hreplies c1 H1) as H2.
  cbn [MongoStore.messages].
  by destruct (Mongo.bulk_write (r :: replies) c1).
Qed.

Lemma converts_to_is_updater (message : Message) (r : pyval) :
  converts_to MongoMessageConverter.convert_message message r -> is_updater r.
Proof.
  intros (a & a' & Hconv).
  apply MongoMessageConverter_Ok in Hconv as (obj & -> & Hid & Hreply).
  by exists (data message), obj.
Qed.

(** X10: with [MongoMessageConverter] and [MongoStore], [DataManager]
    never breaks the unique index on [message_id]: if no two documents
    share a [message_id] before [save_messages] or [save_message], none do
    afterwards, whether the call returns or raises part-way. *)
Theorem save_keeps_unique_index (msgs : list Message) (message : Message)
    (upd_frontier : bool) (st : State MongoStore.t) :
  unique_index "message_id" (MongoStore.messages (store st)) ->
  unique_index "message_id"
    (MongoStore.messages
       (store (DataManager.save_messages MongoMessageConverter.convert_message
                 msgs upd_frontier st).2))
  /\ unique_index "message_id"
       (MongoStore.messages
          (store (DataManager.save_message MongoMessageConverter.convert_message
                    message upd_frontier st).2)).
Proof.
  intros Hunique. split.
  - unfold DataManager.save_messages, bind at 1.
    destruct (mapM _ _ st) as [[converted|e] st1] eqn:Hconv.
    + pose proof (mapM_convert_store _ _ _ _ _ Hconv) as [Hs _].
      apply mapM_convert_Ok in Hconv.
      assert (Forall is_updater converted) as Hupd.
      { clear -Hconv. induction Hconv; constructor;
          eauto using converts_to_is_updater. }
      pose proof (MongoStore_save_messages_unique converted (store st1) Hupd)
        as Hsaved.
      rewrite Hs in Hsaved. specialize (Hsaved Hunique).
      unfold bind at 1, on_store at 1.
      change (save_messages converted (store st1))
        with (MongoStore.save_messages converted (store st1)).
      rewrite Hs.
      destruct (MongoStore.save_messages converted (store st))
        as [[[]|e] s2]; cbn [snd] in Hsaved; [|done].
      unfold bind, lift. destruct (last msgs); [|done].
      by destruct upd_frontier.
    + apply mapM_convert_store in Hconv as [Hs _]. cbn [snd]. by rewrite Hs.
  - unfold DataManager.save_message.
    destruct (is_thread_created message); cbn [negb].
    + unfold bind, ret. by destruct upd_frontier.
    + unfold bind at 1. unfold bind at 1.
      destruct (DataManager.convert_message _ message st)
        as [[r|e] st1] eqn:Hconv.
      * pose proof (convert_message_store _ _ _ _ _ Hconv) as [Hs _].
        apply convert_message_Ok, converts_to_is_updater in Hconv.
        pose proof (MongoStore_save_messages_unique [r] (store st1)
                      ltac:(by constructor)) as Hsaved.
        rewrite Hs in Hsaved. specialize (Hsaved Hunique).
        unfold on_store at 1.
        change (save_message r (store st1))
          with (MongoStore.save_messages [r] (store st1)).
        rewrite Hs.
        destruct (MongoStore.save_messages [r] (store st))
          as [[[]|e] s2]; cbn [snd] in Hsaved; [|done].
        by destruct upd_frontier.
      * apply convert_message_store in Hconv as [Hs _]. cbn [snd].
        by rewrite Hs.
Qed.

Lemma save_keeps_unique_index_witness :
  unique_index "message_id"
    (MongoStore.messages
       (store (DataManager.save_messages MongoMessageConverter.convert_message
                 [Scenario.message 1 8; Scenario.message 1 8] false
                 (Scenario.start MongoStore.init)).2)).
Proof.
  apply (save_keeps_unique_index
           [Scenario.message 1 8; Scenario.message 1 8] (Scenario.message 1 8)
           false (Scenario.start MongoStore.init)).
  intros v. vm_compute. lia.
Defined.

(** ** MongoStore: insert-only fields *)

Lemma MongoMessageConverter_fields message thread a u a' :
  MongoMessageConverter.convert_message message thread a = (Ok u, a') ->
  exists obj,
    u = MongoMessageConverter.updater message obj
    /\ dict_lookup obj "message_id" = Some (PInt (id message))
    /\ dict_lookup obj "reply_to" = Some (reply_to_of message)
    /\ dict_lookup obj "message_content" = None
    /\ dict_lookup obj "processed" = None
    /\ dict_lookup obj "replies" = None
    /\ dict_lookup obj "edited_timestamp" = Some (opt_int (edited_at message))
    /\ dict_lookup obj "edited_content"
       = match edited_at message with
         | Some _ => Some (PStr (content message))
         | None => None
         end.
Proof.
  unfold MongoMessageConverter.convert_message.
  set (obj := MongoMessageConverter.with_edited _ _).
  assert (dict_lookup obj "message_id" = Some (PInt (id message))
          /\ dict_lookup obj "reply_to" = Some (reply_to_of message)
          /\ dict_lookup obj "message_content" = None
          /\ dict_lookup obj "processed" = None
          /\ dict_lookup obj "replies" = None
          /\ dict_lookup obj "edited_timestamp"
             = Some (opt_int (edited_at message))
          /\ dict_lookup obj "edited_content"
             = match edited_at message with
               | Some _ => Some (PStr (content message))
               | None => None
               end) as Hobj.
  { unfold obj, MongoMessageConverter.with_edited,
      MongoMessageConverter.with_reference, reply_to_of.
    destruct (edited_at message) eqn:Hedited, (reference message);
      rewrite ?dict_lookup_set; cbn; by rewrite ?Hedited. }
  unfold bind at 1. destruct thread as [t|].
  - unfold bind at 1.
    destruct (convert_history _ t a) as [[ms|e] a1]; [|done].
    intros [= <- _]. eexists. split; [reflexivity|].
    by rewrite !dict_lookup_set_ne.
  - intros [= <- _]. by exists obj.
Qed.

(** After the back-reference upsert the document of [i] is the one before
    it, except possibly for its [replies]. *)
Lemma find_one_after_reply (i p child : Z) (c : Mongo.collection) (d : dict) :
  Mongo.find_one "message_id" (PInt i) c = Some d ->
  exists d',
    Mongo.find_one "message_id" (PInt i)
      (Mongo.update_one "message_id" (PInt p) (add_reply child) c) = Some d'
    /\ forall k, k <> "replies" -> dict_lookup d' k = dict_lookup d k.
Proof.
  intros Hd. destruct (decide (p = i)) as [->|Hne].
  - rewrite find_one_update_one, Hd.
    + eexists. split; [reflexivity|]. intros k Hk.
      unfold add_reply, Mongo.apply_update, Mongo.operator. cbn.
      by apply add_to_set_lookup_ne.
    + apply keeps_key_replies.
    + rewrite pyval_eqb_int. apply Z.eqb_refl.
  - rewrite find_one_update_one_other, Hd.
    + by exists d.
    + apply keeps_key_replies.
    + rewrite pyval_eqb_int. by apply Z.eqb_neq.
Qed.

(** X11: insert-only fields in [MongoStore]. When the updater of a message
    is saved and a document with its [message_id] exists, the document keeps
    its [message_content] and its [processed] flag; [edited_timestamp] is
    overwritten, and [edited_content] is set to the current content when the
    message has been edited and kept otherwise. When no such document
    exists, the new one gets the content as [message_content] and
    [processed] false. This holds also when the call raises after the
    upsert. *)
Theorem resave_keeps_insert_only_fields (message : MessageData)
    (thread : option Thread) (a a1 : gset Z) (u : pyval) (sm : MongoStore.t) :
  MongoMessageConverter.convert_message message thread a = (Ok u, a1) ->
  exists d',
    Mongo.find_one "message_id" (PInt (id message))
      (MongoStore.messages (save_messages [u] sm).2) = Some d'
    /\ dict_lookup d' "edited_timestamp" = Some (opt_int (edited_at message))
    /\ match Mongo.find_one "message_id" (PInt (id message))
               (MongoStore.messages sm) with
       | Some d =>
           dict_lookup d' "message_content" = dict_lookup d "message_content"
           /\ dict_lookup d' "processed" = dict_lookup d "processed"
           /\ dict_lookup d' "edited_content"
              = match edited_at message with
                | Some _ => Some (PStr (content message))
                | None => dict_lookup d "edited_content"
                end
       | None =>
           dict_lookup d' "message_content" = Some (PStr (content message))
           /\ dict_lookup d' "processed" = Some (PBool false)
       end.
Proof.
  intros Hu.
  apply MongoMessageConverter_fields in Hu
    as (obj & -> & Hid & Hreply & Hcontent & Hprocessed & Hreplies & Hts & Hec).
  change (save_messages [MongoMessageConverter.updater message obj] sm)
    with (MongoStore.save_messages
            [MongoMessageConverter.updater message obj] sm).
  rewrite (MongoStore_save_single message obj Hid Hreply).
  set (c1 := upserted message obj (MongoStore.messages sm)).
  set (d1 := match Mongo.find_one "message_id" (PInt (id message))
                     (MongoStore.messages sm) with
             | Some d =>
                 Mongo.apply_update
                   (MongoMessageConverter.update_document message obj) false d
             | None =>
                 Mongo.apply_update
                   (MongoMessageConverter.update_document message obj) true
                   [("message_id", PInt (id message))]
             end).
  assert (Mongo.find_one "message_id" (PInt (id message)) c1 = Some d1) as Hc1.
  { unfold c1, upserted. rewrite find_one_update_one; [done| |].
    - by apply keeps_key_updater.
    - rewrite pyval_eqb_int. apply Z.eqb_refl. }
  assert (dict_lookup d1 "edited_timestamp" = Some (opt_int (edited_at message))
          /\ match Mongo.find_one "message_id" (PInt (id message))
                     (MongoStore.messages sm) with
             | Some d =>
                 dict_lookup d1 "message_content"
                 = dict_lookup d "message_content"
                 /\ dict_lookup d1 "processed" = dict_lookup d "processed"
                 /\ dict_lookup d1 "edited_content"
                    = match edited_at message with
                      | Some _ => Some (PStr (content message))
                      | None => dict_lookup d "edited_content"
                      end
             | None =>
                 dict_lookup d1 "message_content"
                 = Some (PStr (content message))
                 /\ dict_lookup d1 "processed" = Some (PBool false)
             end) as Hd1.
  { unfold d1, MongoMessageConverter.update_document.
    destruct (Mongo.find_one _ _ (MongoStore.messages sm)) as [d|];
      rewrite apply_update_updater, !dict_lookup_update,
        ?Hts, ?Hcontent, ?Hprocessed, ?Hec.
    - repeat split; try done. by destruct (edited_at message).
    - by cbn. }
  assert (forall d2,
            (forall k, k <> "replies" -> dict_lookup d2 k = dict_lookup d1 k) ->
            dict_lookup d2 "edited_timestamp"
            = Some (opt_int (edited_at message))
            /\ match Mongo.find_one "message_id" (PInt (id message))
                       (MongoStore.messages sm) with
               | Some d =>
                   dict_lookup d2 "message_content"
                   = dict_lookup d "message_content"
                   /\ dict_lookup d2 "processed" = dict_lookup d "processed"
                   /\ dict_lookup d2 "edited_content"
                      = match edited_at message with
                        | Some _ => Some (PStr (content message))
                        | None => dict_lookup d "edited_content"
                        end
               | None =>
                   dict_lookup d2 "message_content"
                   = Some (PStr (content message))
                   /\ dict_lookup d2 "processed" = Some (PBool false)
               end) as Hd2.
  { intros d2 Hsame. rewrite !Hsame by done. exact Hd1. }
  destruct (reference message) as [r|]; [destruct (ref_message_id r) as [p|]|].
  - cbn [snd MongoStore.messages].
    destruct (find_one_after_reply (id message) p (id message) c1 d1 Hc1)
      as (d2 & Hfind & Hsame).
    exists d2. split; [exact Hfind|]. by apply Hd2.
  - exists d1. split; [exact Hc1|exact Hd1].
  - exists d1. split; [exact Hc1|exact Hd1].
Qed.

Lemma resave_keeps_insert_only_fields_witness :
  let original := data (Scenario.message 1 1) in
  let edited :=
    {| id := 1; channel_id := 1; channel_type := "text";
       type := default_type; content := "changed"; created_at := 1;
       edited_at := Some 2; attachments := []; embeds := [];
       author_id := 100; reference := None |} in
  let sm := (save_messages
               [MongoMessageConverter.updater original
                  (MongoMessageConverter.message_obj original)]
               MongoStore.init).2 in
  exists u d',
    Mongo.find_one "message_id" (PInt 1)
      (MongoStore.messages (save_messages [u] sm).2) = Some d'
    /\ dict_lookup d' "message_content" = Some (PStr "hello")
    /\ dict_lookup d' "edited_content" = Some (PStr "changed").
Proof.
  intros original edited sm.
  edestruct (resave_keeps_insert_only_fields edited None ∅) with (sm := sm)
    as (d' & Hfind & _ & Hfields); [reflexivity|].
  eexists _, d'. split; [exact Hfind|].
  destruct Hfields as (Hcontent & _ & Hedited).
  exact (conj Hcontent Hedited).
Defined.

(** ** MongoStore: one frontier document per channel *)

(** X12: [MongoStore] keeps at most one frontier document per channel: if
    no two frontier documents share a [channel_id], then after
    [update_frontier] or [finish_frontier] on a channel there is exactly one
    document for that channel and still no two documents share a
    [channel_id]. *)
Theorem frontier_documents_unique (clock : nat -> Q) (c i : Z)
    (st : State MongoStore.t) :
  unique_index "channel_id" (MongoStore.frontiers (store st)) ->
  let s1 := update_frontier c i (store st) in
  let s2 := store (DataManager.finish_frontier clock c st).2 in
  unique_index "channel_id" (MongoStore.frontiers s1)
  /\ count_docs "channel_id" (PInt c) (MongoStore.frontiers s1) = 1%nat
  /\ unique_index "channel_id" (MongoStore.frontiers s2)
  /\ count_docs "channel_id" (PInt c) (MongoStore.frontiers s2) = 1%nat.
Proof.
  intros Hunique s1 s2.
  assert (unique_index "channel_id" (MongoStore.frontiers s1)
          /\ count_docs "channel_id" (PInt c) (MongoStore.frontiers s1) = 1%nat)
    as [H1 H2].
  { apply unique_index_update_one; [|done]. apply keeps_key_set. by left. }
  assert (unique_index "channel_id" (MongoStore.frontiers s2)
          /\ count_docs "channel_id" (PInt c) (MongoStore.frontiers s2) = 1%nat)
    as [H3 H4].
  { unfold s2. rewrite finish_frontier_eval. cbn [snd store].
    apply unique_index_update_one; [|done]. apply keeps_key_set.
    rewrite !dict_lookup_set_ne by done.
    apply MongoStore_get_frontier_channel. }
  done.
Qed.

Lemma frontier_documents_unique_witness :
  count_docs "channel_id" (PInt 1)
    (MongoStore.frontiers
       (store (DataManager.finish_frontier Scenario.clock 1
                 (Scenario.start MongoStore.init)).2)) = 1%nat.
Proof.
  destruct (frontier_documents_unique Scenario.clock 1 0
              (Scenario.start MongoStore.init)) as (_ & _ & _ & Hcount).
  - intros v. vm_compute. lia.
  - exact Hcount.
Defined.

Lemma keyed_lookup_set_int (fs : list (pyval * dict)) (z c : Z) (x : dict) :
  Forall (fun kv => exists a, kv.1 = PInt a) fs ->
  keyed_lookup (keyed_set fs (PInt z) x) (PInt c)
  = if z =? c then Some x else keyed_lookup fs (PInt c).
Proof.
  induction 1 as [|[k v] fs [a Hk] _ IH]; cbn [keyed_set keyed_lookup].
  - by rewrite py_eq_int.
  - cbn [fst] in Hk. subst k. rewrite py_eq_int.
    destruct (a =? z) eqn:Haz; cbn [keyed_lookup]; rewrite py_eq_int.
    + apply Z.eqb_eq in Haz. subst a.
      by destruct (z =? c).
    + rewrite IH. destruct (a =? c) eqn:Hac; [|done].
      apply Z.eqb_eq in Hac. subst a. by rewrite Z.eqb_sym, Haz.
Qed.

Lemma keyed_set_int_keys (fs : list (pyval * dict)) (z : Z) (x : dict) :
  Forall (fun kv => exists a, kv.1 = PInt a) fs ->
  Forall (fun kv => exists a, kv.1 = PInt a) (keyed_set fs (PInt z) x).
Proof.
  induction 1 as [|[k v] fs Hk Hfs IH]; cbn [keyed_set].
  - repeat constructor. by exists z.
  - destruct (py_eq k (PInt z)); constructor; done.
Qed.

(** The dictionary is built when every document carries an integer
    [channel_id]; with distinct [channel_id]s, its entry for [c] is the
    document that [find_one] returns. *)
Lemma get_frontiers_fold (docs : Mongo.collection) (c : Z) :
  Forall has_channel_id docs ->
  unique_index "channel_id" docs ->
  forall acc : list (pyval * dict),
    Forall (fun kv => exists a, kv.1 = PInt a) acc ->
    exists fs,
      fold_left (fun acc x =>
                   obind acc (fun fs =>
                   obind (subscript (PDict x) "channel_id") (fun k =>
                   if hashable k then Ok (keyed_set fs k x)
                   else Raise TypeError)))
                docs (Ok acc) = Ok fs
      /\ keyed_lookup fs (PInt c)
         = match Mongo.find_one "channel_id" (PInt c) docs with
           | Some d => Some d
           | None => keyed_lookup acc (PInt c)
           end.
Proof.
  induction 1 as [|d docs [z Hz] _ IH]; intros Hunique acc Hacc.
  { by exists acc. }
  assert (unique_index "channel_id" docs) as Hrest.
  { intros v. specialize (Hunique v). unfold count_docs in *.
    cbn [List.filter] in Hunique.
    destruct (Mongo.doc_matches "channel_id" v d); cbn [length] in Hunique; lia. }
  cbn [fold_left obind subscript]. rewrite Hz. cbn [obind hashable].
  destruct (IH Hrest (keyed_set acc (PInt z) d)
              (keyed_set_int_keys acc z d Hacc)) as (fs & Hfs & Hlook).
  exists fs. split; [exact Hfs|]. rewrite Hlook.
  unfold Mongo.find_one. cbn [List.find].
  assert (Mongo.doc_matches "channel_id" (PInt c) d = (z =? c)) as Hd.
  { unfold Mongo.doc_matches. by rewrite Hz, pyval_eqb_int. }
  rewrite Hd, keyed_lookup_set_int by done.
  destruct (z =? c) eqn:Hzc; [|done].
  assert (List.find (Mongo.doc_matches "channel_id" (PInt c)) docs = None)
    as ->; [|done].
  apply find_one_None. specialize (Hunique (PInt c)).
  unfold count_docs in *. cbn [List.filter] in Hunique.
  rewrite Hd in Hunique. cbn [length] in Hunique. lia.
Qed.

(** A document without [channel_id] makes the comprehension raise, wherever
    it stands. *)
Lemma get_frontiers_raises (docs : Mongo.collection) (d : dict) :
  d ∈ docs ->
  dict_lookup d "channel_id" = None ->
  forall acc,
    is_ok (fold_left (fun acc x =>
                        obind acc (fun fs =>
                        obind (subscript (PDict x) "channel_id") (fun k =>
                        if hashable k then Ok (keyed_set fs k x)
                        else Raise TypeError)))
                     docs acc) = false.
Proof.
  intros Hin Hd.
  assert (forall (l : Mongo.collection) e,
            is_ok (fold_left (fun acc x =>
                        obind acc (fun fs =>
                        obind (subscript (PDict x) "channel_id") (fun k =>
                        if hashable k then Ok (keyed_set fs k x)
                        else Raise TypeError)))
                     l (Raise e)) = false) as Hraise.
  { induction l as [|x l IHl]; intros e; [done|]. apply IHl. }
  induction Hin as [d docs|d x docs _ IH]; intros acc; cbn [fold_left].
  - destruct acc as [fs|e]; cbn [obind subscript]; [|apply Hraise].
    rewrite Hd. apply Hraise.
  - by apply IH.
Qed.

Lemma has_channel_id_update_one (z : Z) (upd : dict) (c : Mongo.collection) :
  keeps_key "channel_id" (PInt z) upd ->
  Forall has_channel_id c ->
  Forall has_channel_id (Mongo.update_one "channel_id" (PInt z) upd c).
Proof.
  intros [Hupd Hins]. induction 1 as [|d c Hd Hc IH]; cbn [Mongo.update_one].
  - repeat constructor. by exists z.
  - destruct (Mongo.doc_matches "channel_id" (PInt z) d) eqn:Hm;
      constructor; try done.
    destruct Hd as [a Ha]. exists a. by rewrite Hupd.
Qed.

(** X13: [MongoStore.get_frontiers] against [MongoStore.get_frontier]. When
    every frontier document carries an integer [channel_id] and no two
    share one, [get_frontiers] returns a dictionary, and [get_frontier(c)]
    is its entry for [c] when there is one and the empty dictionary
    otherwise. [update_frontier] and [finish_frontier] keep every document
    carrying an integer [channel_id]. When some document has no
    [channel_id], [get_frontiers] raises, while [get_frontier] still
    answers. *)
Theorem get_frontiers_agrees (clock : nat -> Q) (c i : Z)
    (st : State MongoStore.t) :
  (Forall has_channel_id (MongoStore.frontiers (store st)) ->
   unique_index "channel_id" (MongoStore.frontiers (store st)) ->
   exists fs,
     MongoStore.get_frontiers (store st) = Ok fs
     /\ get_frontier c (store st) = default [] (keyed_lookup fs (PInt c)))
  /\ (Forall has_channel_id (MongoStore.frontiers (store st)) ->
      Forall has_channel_id
        (MongoStore.frontiers (update_frontier c i (store st)))
      /\ Forall has_channel_id
           (MongoStore.frontiers
              (store (DataManager.finish_frontier clock c st).2)))
  /\ ((exists d, d ∈ MongoStore.frontiers (store st)
                 /\ dict_lookup d "channel_id" = None) ->
      is_ok (MongoStore.get_frontiers (store st)) = false).
Proof.
  split; [|split].
  - intros Hall Hunique.
    destruct (get_frontiers_fold _ c Hall Hunique [] (List.Forall_nil _))
      as (fs & Hfs & Hlook).
    exists fs. split; [exact Hfs|]. rewrite Hlook. cbn [keyed_lookup].
    cbn. unfold MongoStore.get_frontier.
    destruct (Mongo.find_one _ _ _) as [d|] eqn:Hd; [|done].
    apply find_one_matches, doc_matches_int in Hd.
    by erewrite truthy_dict.
  - intros Hall. split.
    + apply has_channel_id_update_one; [|done]. apply keeps_key_set. by left.
    + rewrite finish_frontier_eval. cbn [snd store].
      apply has_channel_id_update_one; [|done]. apply keeps_key_set.
      rewrite !dict_lookup_set_ne by done.
      apply MongoStore_get_frontier_channel.
  - intros (d & Hin & Hd). by apply (get_frontiers_raises _ d).
Qed.

Lemma get_frontiers_agrees_witness :
  let st := Scenario.start (update_frontier 1 5 MongoStore.init) in
  exists fs,
    MongoStore.get_frontiers (store st) = Ok fs
    /\ get_frontier 1 (store st) = default [] (keyed_lookup fs (PInt 1)).
Proof.
  intros st.
  apply (get_frontiers_agrees Scenario.clock 1 0 st).
  - repeat constructor. by exists 1.
  - intros v. unfold count_docs. cbn.
    destruct (match v with PInt _ => _ | _ => _ end); cbn; lia.
Defined.

(** ** Converters *)

Section Nested.
Variable nested : MessageData -> M (gset Z) pyval.
Variable shape : MessageData -> pyval.
Hypothesis nested_eval :
  forall x a, nested x a = (Ok (shape x), {[author_id x]} ∪ a).

(** The comprehension over a thread's history never fails by itself: it
    converts every message delivered and collects the authors. *)
Lemma mapM_nested (l : list MessageData) :
  forall a,
    exists a',
      mapM nested l a = (Ok (List.map shape l), a')
      /\ a ⊆ a'
      /\ (forall x, x ∈ l -> author_id x ∈ a').
Proof.
  induction l as [|x l IH]; intros a.
  - exists a. repeat split; [done|]. intros x Hx. by apply elem_of_nil in Hx.
  - cbn [mapM List.map]. unfold bind at 1. rewrite nested_eval.
    destruct (IH ({[author_id x]} ∪ a)) as (a' & Hrun & Hsub & Hin).
    unfold bind. rewrite Hrun. exists a'. repeat split.
    + set_solver.
    + intros y Hy. apply elem_of_cons in Hy as [->|Hy]; [set_solver|eauto].
Qed.

Lemma convert_history_nested (t : Thread) (a : gset Z) :
  exists a',
    convert_history nested t a
    = (match t_history_error t with
       | Some e => Raise e
       | None => Ok (List.map shape (t_history t))
       end, a')
    /\ a ⊆ a'
    /\ (forall x, x ∈ t_history t -> author_id x ∈ a').
Proof.
  destruct (mapM_nested (t_history t) a) as (a' & Hrun & Hsub & Hin).
  exists a'. split; [|done].
  unfold convert_history, bind. rewrite Hrun.
  by destruct (t_history_error t).
Qed.

End Nested.

Lemma SimpleMessageConverter_nested x a :
  SimpleMessageConverter.convert_nested x a
  = (Ok (PDict (SimpleMessageConverter.with_reference x
                  (SimpleMessageConverter.message_obj x))),
     {[author_id x]} ∪ a).
Proof. reflexivity. Qed.

Lemma MongoMessageConverter_nested x a :
  MongoMessageConverter.convert_nested x a
  = (Ok (MongoMessageConverter.updater x
           (MongoMessageConverter.with_edited x
              (MongoMessageConverter.with_reference x
                 (MongoMessageConverter.message_obj x)))),
     {[author_id x]} ∪ a).
Proof. reflexivity. Qed.

(** What [convert_message] of either converter returns, in terms of the
    thread's history. *)
Lemma SimpleMessageConverter_eval message thread a :
  exists a',
    SimpleMessageConverter.convert_message message thread a
    = (match history_error thread with
       | Some e => Raise e
       | None =>
           let obj := SimpleMessageConverter.with_reference message
                        (SimpleMessageConverter.message_obj message) in
           Ok (PDict
                 match thread with
                 | Some t =>
                     dict_set obj "thread"
                       (thread_obj t
                          (List.map
                             (fun x =>
                                PDict (SimpleMessageConverter.with_reference x
                                         (SimpleMessageConverter.message_obj x)))
                             (t_history t)))
                 | None => obj
                 end)
       end, a')
    /\ a ⊆ a'
    /\ (forall t x, thread = Some t -> x ∈ t_history t -> author_id x ∈ a')
    /\ (history_error thread = None -> author_id message ∈ a').
Proof.
  unfold SimpleMessageConverter.convert_message, history_error.
  destruct thread as [t|]; cbn [mbind option_bind].
  - destruct (convert_history_nested _ _ SimpleMessageConverter_nested t a)
      as (a1 & Hrun & Hsub & Hin).
    unfold bind at 1. unfold bind at 1. rewrite Hrun.
    destruct (t_history_error t) as [e|].
    + exists a1. repeat split; [done| |done].
      intros t' x [= <-]. apply Hin.
    + eexists. split; [reflexivity|]. repeat split.
      * set_solver.
      * intros t' x [= <-] Hx. apply Hin in Hx. set_solver.
      * set_solver.
  - eexists. split; [reflexivity|]. repeat split; [set_solver|done|set_solver].
Qed.

Lemma MongoMessageConverter_eval message thread a :
  exists a',
    MongoMessageConverter.convert_message message thread a
    = (match history_error thread with
       | Some e => Raise e
       | None =>
           let obj := MongoMessageConverter.with_edited message
                        (MongoMessageConverter.with_reference message
                           (MongoMessageConverter.message_obj message)) in
           Ok (MongoMessageConverter.updater message
                 match thread with
                 | Some t =>
                     dict_set obj "thread"
                       (thread_obj t
                          (List.map
                             (fun x =>
                                MongoMessageConverter.updater x
                                  (MongoMessageConverter.with_edited x
                                     (MongoMessageConverter.with_reference x
                                        (MongoMessageConverter.message_obj x))))
                             (t_history t)))
                 | None => obj
                 end)
       end, a')
    /\ a ⊆ a'
    /\ (forall t x, thread = Some t -> x ∈ t_history t -> author_id x ∈ a')
    /\ (history_error thread = None -> author_id message ∈ a').
Proof.
  unfold MongoMessageConverter.convert_message, history_error.
  destruct thread as [t|]; cbn [mbind option_bind].
  - destruct (convert_history_nested _ _ MongoMessageConverter_nested t a)
      as (a1 & Hrun & Hsub & Hin).
    unfold bind at 1. unfold bind at 1. rewrite Hrun.
    destruct (t_history_error t) as [e|].
    + exists a1. repeat split; [done| |done].
      intros t' x [= <-]. apply Hin.
    + eexists. split; [reflexivity|]. repeat split.
      * set_solver.
      * intros t' x [= <-] Hx. apply Hin in Hx. set_solver.
      * set_solver.
  - eexists. split; [reflexivity|]. repeat split; [set_solver|done|set_solver].
Qed.

(** X14: the two converters fail in one case only: when the message has a
    thread whose history cannot be fetched, and then with the exception of
    that fetch; on every other input they return a converted message. *)
Theorem converters_fail_only_on_thread_history (message : MessageData)
    (thread : option Thread) (a : gset Z) :
  match history_error thread with
  | Some e =>
      (SimpleMessageConverter.convert_message message thread a).1 = Raise e
      /\ (MongoMessageConverter.convert_message message thread a).1 = Raise e
  | None =>
      is_ok (SimpleMessageConverter.convert_message message thread a).1 = true
      /\ is_ok (MongoMessageConverter.convert_message message thread a).1 = true
  end.
Proof.
  destruct (SimpleMessageConverter_eval message thread a) as (a1 & -> & _).
  destruct (MongoMessageConverter_eval message thread a) as (a2 & -> & _).
  by destruct (history_error thread).
Qed.

(** X15: the [authors] set of a converter only grows: after
    [convert_message], whether it returned or raised, the set contains what
    it contained before and the author of every message delivered by the
    thread's history; when the conversion returns, it also contains the
    author of the message itself. *)
Theorem converters_collect_authors (message : MessageData)
    (thread : option Thread) (a : gset Z) :
  let simple := SimpleMessageConverter.convert_message message thread a in
  let mongo := MongoMessageConverter.convert_message message thread a in
  (a ⊆ simple.2 /\ a ⊆ mongo.2)
  /\ (forall t x, thread = Some t -> x ∈ t_history t ->
        author_id x ∈ simple.2 /\ author_id x ∈ mongo.2)
  /\ (is_ok simple.1 = true -> author_id message ∈ simple.2)
  /\ (is_ok mongo.1 = true -> author_id message ∈ mongo.2).
Proof.
  cbv zeta.
  destruct (SimpleMessageConverter_eval message thread a)
    as (a1 & -> & Hs1 & Ht1 & Hm1).
  destruct (MongoMessageConverter_eval message thread a)
    as (a2 & -> & Hs2 & Ht2 & Hm2).
  cbn [fst snd]. repeat split; eauto.
  - destruct (history_error thread); [done|auto].
  - destruct (history_error thread); [done|auto].
Qed.

Lemma converters_collect_authors_witness :
  let t := {| t_id := 1; t_name := "t"; t_created_at := 1;
              t_message_count := 1; t_owner_id := 100;
              t_history := [data (Scenario.reply_to 1 2 1 1)];
              t_history_error := None |} in
  let r := MongoMessageConverter.convert_message
             (data (Scenario.message 1 1)) (Some t) ∅ in
  101 ∈ r.2 /\ 100 ∈ r.2.
Proof.
  intros t r.
  destruct (converters_collect_authors (data (Scenario.message 1 1)) (Some t) ∅)
    as (_ & Hthread & _ & Hown).
  split.
  - apply (Hthread t (data (Scenario.reply_to 1 2 1 1)) eq_refl).
    vm_compute. by left.
  - apply Hown. reflexivity.
Defined.

Lemma Simple_shape_fields x :
  let e := PDict (SimpleMessageConverter.with_reference x
                    (SimpleMessageConverter.message_obj x)) in
  subscript e "message_id" = Ok (PInt (id x))
  /\ subscript e "thread" = Ok PNone.
Proof.
  cbv zeta. unfold SimpleMessageConverter.with_reference, subscript.
  destruct (reference x); rewrite ?dict_lookup_set; by cbn.
Qed.

Lemma set_field_updater message obj k :
  set_field (MongoMessageConverter.updater message obj) k
  = subscript (PDict obj) k.
Proof. reflexivity. Qed.

Lemma Mongo_shape_fields x :
  let e := MongoMessageConverter.updater x
             (MongoMessageConverter.with_edited x
                (MongoMessageConverter.with_reference x
                   (MongoMessageConverter.message_obj x))) in
  set_field e "message_id" = Ok (PInt (id x))
  /\ set_field e "thread" = Ok PNone.
Proof.
  cbv zeta. rewrite !set_field_updater.
  unfold MongoMessageConverter.with_edited,
    MongoMessageConverter.with_reference, subscript.
  destruct (edited_at x), (reference x); rewrite ?dict_lookup_set; by cbn.
Qed.

(** X16: a message with a thread is converted together with the whole
    history that [thread.history()] delivers: when the fetch succeeds, the
    ["thread"] entry of the result lists one converted message per message
    delivered, in the same order and with the same identifiers, and each
    of these is converted without a thread of its own (nested threads are
    not expanded). *)
Theorem thread_embedded_whole (message : MessageData) (t : Thread)
    (a : gset Z) :
  t_history_error t = None ->
  exists r u ms_simple ms_mongo,
    (SimpleMessageConverter.convert_message message (Some t) a).1 = Ok r
    /\ (MongoMessageConverter.convert_message message (Some t) a).1 = Ok u
    /\ subscript r "thread" = Ok (thread_obj t ms_simple)
    /\ set_field u "thread" = Ok (thread_obj t ms_mongo)
    /\ Forall2 (fun x e => subscript e "message_id" = Ok (PInt (id x))
                           /\ subscript e "thread" = Ok PNone)
               (t_history t) ms_simple
    /\ Forall2 (fun x e => set_field e "message_id" = Ok (PInt (id x))
                           /\ set_field e "thread" = Ok PNone)
               (t_history t) ms_mongo.
Proof.
  intros Hok.
  destruct (SimpleMessageConverter_eval message (Some t) a) as (a1 & -> & _).
  destruct (MongoMessageConverter_eval message (Some t) a) as (a2 & -> & _).
  unfold history_error. cbn [mbind option_bind]. rewrite Hok. cbn [fst].
  eexists _, _, _, _. split; [reflexivity|]. split; [reflexivity|].
  split; [|split; [|split]].
  - unfold subscript. by rewrite dict_lookup_set_eq.
  - rewrite set_field_updater. unfold subscript. by rewrite dict_lookup_set_eq.
  - induction (t_history t) as [|x l IH]; constructor; [|done].
    apply Simple_shape_fields.
  - induction (t_history t) as [|x l IH]; constructor; [|done].
    apply Mongo_shape_fields.
Qed.

Lemma thread_embedded_whole_witness :
  let t := {| t_id := 1; t_name := "t"; t_created_at := 1;
              t_message_count := 2; t_owner_id := 100;
              t_history := [data (Scenario.message 1 3);
                            data (Scenario.message 1 2)];
              t_history_error := None |} in
  exists r ms,
    (SimpleMessageConverter.convert_message (data (Scenario.message 1 1))
       (Some t) ∅).1 = Ok r
    /\ subscript r "thread" = Ok (thread_obj t ms)
    /\ length ms = 2%nat.
Proof.
  intros t.
  destruct (thread_embedded_whole (data (Scenario.message 1 1)) t ∅ eq_refl)
    as (r & _ & ms & _ & Hr & _ & Hthread & _ & Hall & _).
  exists r, ms. split; [exact Hr|]. split; [exact Hthread|].
  symmetry. exact (Forall2_length _ _ _ Hall).
Defined.

(** ** Pairing of converters and stores *)

(** X17: the converters and the stores go in pairs. A [BasicStore] whose
    first record is an updater of [MongoMessageConverter] (the default
    converter of [DataManager]) raises [KeyError] in [message_exists] for
    every identifier; and [MongoStore.save_messages] raises [KeyError] on a
    batch that starts with a record of [SimpleMessageConverter], before
    anything is written. *)
Theorem mismatched_converter_and_store (message : MessageData)
    (thread : option Thread) (a a1 a2 : gset Z) (u r : pyval) :
  MongoMessageConverter.convert_message message thread a = (Ok u, a1) ->
  SimpleMessageConverter.convert_message message thread a = (Ok r, a2) ->
  (forall i rest frontier,
      message_exists i {| BasicStore.messages := u :: rest;
                          BasicStore.frontier := frontier |}
      = Raise (KeyError (PStr "message_id")))
  /\ (forall rest (sm : MongoStore.t),
        save_messages (r :: rest) sm = (Raise (KeyError (PStr "$set")), sm)).
Proof.
  intros Hu Hr.
  apply MongoMessageConverter_Ok in Hu as (obj & -> & _).
  destruct (SimpleMessageConverter_eval message thread a) as (a' & Heval & _).
  rewrite Heval in Hr. split.
  - reflexivity.
  - intros rest sm.
    assert (subscript r "$set" = Raise (KeyError (PStr "$set"))) as Hset.
    { destruct (history_error thread); [done|]. injection Hr as <- _.
      unfold subscript, SimpleMessageConverter.with_reference.
      destruct thread, (reference message); rewrite ?dict_lookup_set; by cbn. }
    cbn. unfold MongoStore.save_messages, bind, lift. cbn [traverse].
    unfold MongoStore.upsert_request at 1. by rewrite Hset.
Qed.

Lemma mismatched_converter_and_store_witness :
  message_exists 2
    (store (DataManager.save_message MongoMessageConverter.convert_message
              (Scenario.message 1 1) false (Scenario.start BasicStore.init)).2)
  = Raise (KeyError (PStr "message_id")).
Proof.
  edestruct (mismatched_converter_and_store (data (Scenario.message 1 1))
               None ∅) as [Hbasic _]; [reflexivity | reflexivity |].
  exact (Hbasic 2 [] ∅).
Defined.

(** ** BasicStore: lookup by identifier *)

Lemma any_message_id_spec (i : Z) (l : list pyval) :
  Forall has_message_id l ->
  exists b,
    BasicStore.any_message_id i l = Ok b
    /\ (b = true <-> exists r, r ∈ l /\ subscript r "message_id" = Ok (PInt i)).
Proof.
  induction 1 as [|x l [z Hz] _ (b & IH & Hb)].
  - exists false. split; [done|]. split; [done|].
    intros (r & Hr & _). by apply elem_of_nil in Hr.
  - cbn [BasicStore.any_message_id]. rewrite Hz. cbn [obind].
    rewrite py_eq_int. destruct (z =? i) eqn:E.
    + apply Z.eqb_eq in E. subst z. exists true. split; [done|].
      split; [|done]. intros _. exists x. split; [|done].
      apply elem_of_cons. by left.
    + apply Z.eqb_neq in E. exists b. split; [done|]. rewrite Hb. split.
      * intros (r & Hr & Hri). exists r. split; [|done].
        apply elem_of_cons. by right.
      * intros (r & Hr & Hri). apply elem_of_cons in Hr as [->|Hr].
        -- congruence.
        -- by exists r.
Qed.

(** X18: in a [BasicStore] whose records all carry an integer
    [message_id], [message_exists] never raises, and it answers true
    exactly when some stored record has the identifier asked for. *)
Theorem BasicStore_message_exists_iff (i : Z) (s : BasicStore.t) :
  Forall has_message_id (BasicStore.messages s) ->
  exists b,
    message_exists i s = Ok b
    /\ (b = true <->
        exists r, r ∈ BasicStore.messages s
                  /\ subscript r "message_id" = Ok (PInt i)).
Proof. apply any_message_id_spec. Qed.

Lemma BasicStore_message_exists_iff_witness :
  exists b,
    message_exists 7 (store Scenario.C_basic) = Ok b
    /\ (b = true <->
        exists r, r ∈ BasicStore.messages (store Scenario.C_basic)
                  /\ subscript r "message_id" = Ok (PInt 7)).
Proof.
  apply (BasicStore_message_exists_iff 7 (store Scenario.C_basic)).
  vm_compute. repeat constructor. by exists 7.
Defined.

(** X19: with [SimpleMessageConverter] and [BasicStore], [DataManager]
    keeps that property of the store: if every stored record carries an
    integer [message_id] before [save_messages] or [save_message], every
    stored record does afterwards, whether the call returns or raises. *)
Theorem save_keeps_message_ids (msgs : list Message) (message : Message)
    (upd_frontier : bool) (st : State BasicStore.t) :
  Forall has_message_id (BasicStore.messages (store st)) ->
  Forall has_message_id
    (BasicStore.messages
       (store (DataManager.save_messages SimpleMessageConverter.convert_message
                 msgs upd_frontier st).2))
  /\ Forall has_message_id
       (BasicStore.messages
          (store (DataManager.save_message
                    SimpleMessageConverter.convert_message
                    message upd_frontier st).2)).
Proof.
  intros Hst.
  assert (forall m r,
            converts_to SimpleMessageConverter.convert_message m r ->
            has_message_id r) as Hconv.
  { intros m r (a & a' & Hr). apply SimpleMessageConverter_Ok in Hr.
    by eexists. }
  split.
  - unfold DataManager.save_messages, bind at 1.
    destruct (mapM _ _ st) as [[converted|e] st1] eqn:Hmap.
    + pose proof (mapM_convert_store _ _ _ _ _ Hmap) as [Hs _].
      apply mapM_convert_Ok in Hmap.
      assert (Forall has_message_id converted) as Hall.
      { clear -Hmap Hconv. induction Hmap; constructor; eauto. }
      unfold bind at 1, on_store at 1. cbn [save_messages BasicStore_DataStore].
      unfold BasicStore.save_messages at 1, modify.
      unfold bind, lift. destruct (last msgs); cbn [snd store]; rewrite ?Hs.
      * destruct upd_frontier; cbn [snd store BasicStore.messages];
          by apply Forall_app.
      * cbn [BasicStore.messages]. by apply Forall_app.
    + apply mapM_convert_store in Hmap as [Hs _]. cbn [snd]. by rewrite Hs.
  - unfold DataManager.save_message.
    destruct (is_thread_created message); cbn [negb].
    + unfold bind, ret. by destruct upd_frontier.
    + unfold bind at 1. unfold bind at 1.
      destruct (DataManager.convert_message _ message st)
        as [[r|e] st1] eqn:Hone.
      * pose proof (convert_message_store _ _ _ _ _ Hone) as [Hs _].
        apply convert_message_Ok, Hconv in Hone.
        unfold on_store at 1. cbn [save_message BasicStore_DataStore].
        unfold BasicStore.save_message at 1, modify.
        destruct upd_frontier; cbn [snd store BasicStore.messages];
          rewrite Hs; apply Forall_app; split; by repeat constructor.
      * apply convert_message_store in Hone as [Hs _]. cbn [snd].
        by rewrite Hs.
Qed.

Lemma save_keeps_message_ids_witness :
  Forall has_message_id
    (BasicStore.messages
       (store (DataManager.save_messages SimpleMessageConverter.convert_message
                 [Scenario.message 1 8; Scenario.marker 1 9] false
                 (Scenario.start BasicStore.init)).2)).
Proof.
  apply (save_keeps_message_ids [Scenario.message 1 8; Scenario.marker 1 9]
           (Scenario.message 1 8) false (Scenario.start BasicStore.init)).
  vm_compute. constructor.
Defined.

(** ** Scheduling delays *)

Lemma py_mod_spec (x m : Q) :
  (0 < m)%Q ->
  (0 <= py_mod x m)%Q /\ (py_mod x m < m)%Q
  /\ exists k : Z, (x == py_mod x m + m * inject_Z k)%Q.
Proof.
  intros Hm. unfold py_mod.
  pose proof (Qfloor_le (x / m)) as Hlo.
  pose proof (Qlt_floor (x / m)) as Hhi.
  assert (x == m * (x / m))%Q as Hx.
  { rewrite Qmult_div_r; [reflexivity|].
    intros E. rewrite E in Hm. discriminate. }
  set (q := (x / m)%Q) in *. set (f := Qfloor q) in *.
  rewrite inject_Z_plus in Hhi.
  assert (0 <= m * (q - inject_Z f))%Q as H1
    by (apply Qmult_le_0_compat; lra).
  assert (0 < m * (inject_Z f + inject_Z 1 - q))%Q as H2
    by (apply Qmult_lt_0_compat; lra).
  unfold inject_Z at 2 in H2.
  split; [lra|]. split; [lra|]. exists f. lra.
Qed.

(** X20: reading the clock value as the number it denotes and the
    arithmetic as exact, [delay_to_next_minute] is more than 0 and at most 60 seconds and ends on
    a minute boundary (on a boundary it waits the full minute);
    [delay_to_next_hour] and [delay_to_next_day] are at least 0 and less
    than their period and end on an hour and a day boundary (on a boundary
    they do not wait at all). *)
Theorem delays_end_on_boundary (now : Q) :
  ((0 < delay_to_next_minute now)%Q /\ (delay_to_next_minute now <= 60)%Q
   /\ exists k : Z, (now + delay_to_next_minute now == 60 * inject_Z k)%Q)
  /\ ((0 <= delay_to_next_hour now)%Q /\ (delay_to_next_hour now < 3600)%Q
      /\ exists k : Z, (now + delay_to_next_hour now == 3600 * inject_Z k)%Q)
  /\ ((0 <= delay_to_next_day now)%Q /\ (delay_to_next_day now < 86400)%Q
      /\ exists k : Z, (now + delay_to_next_day now == 86400 * inject_Z k)%Q)
  /\ delay_to_next_minute 120 == 60
  /\ delay_to_next_hour 7200 == 0.
Proof.
  unfold delay_to_next_minute, delay_to_next_hour, delay_to_next_day.
  destruct (py_mod_spec now 60 eq_refl) as (Hm0 & Hm1 & km & Hm).
  destruct (py_mod_spec (3600 - now) 3600 eq_refl) as (Hh0 & Hh1 & kh & Hh).
  destruct (py_mod_spec (86400 - now) 86400 eq_refl) as (Hd0 & Hd1 & kd & Hd).
  repeat split; try lra; try reflexivity.
  - exists (km + 1)%Z. rewrite inject_Z_plus. unfold inject_Z at 2. lra.
  - exists (1 - kh)%Z. unfold Z.sub. rewrite inject_Z_plus, inject_Z_opp.
    unfold inject_Z at 1. lra.
  - exists (1 - kd)%Z. unfold Z.sub. rewrite inject_Z_plus, inject_Z_opp.
    unfold inject_Z at 1. lra.
Qed.

(** X21: [delay_to_next_week] and [delay_to_next_month] (the latter is
    the default [sleep_delay] of [Scraper]) both start from
    [86400 - time.time()]; with exact arithmetic, the
    wake-up they give lies one day after a multiple of their period, which
    is 7 days for the week and 7 * 31 = 217 days for the "month"; the delay
    is at least 0 and less than the period. *)
Theorem long_delays_end_one_day_past_period (now : Q) :
  ((0 <= delay_to_next_week now)%Q /\ (delay_to_next_week now < 604800)%Q
   /\ exists k : Z,
        (now + delay_to_next_week now == 86400 + 604800 * inject_Z k)%Q)
  /\ ((0 <= delay_to_next_month now)%Q
      /\ (delay_to_next_month now < 18748800)%Q
      /\ exists k : Z,
           (now + delay_to_next_month now
            == 86400 + 18748800 * inject_Z k)%Q).
Proof.
  unfold delay_to_next_week, delay_to_next_month.
  destruct (py_mod_spec (86400 - now) (86400 * 7) eq_refl)
    as (Hw0 & Hw1 & kw & Hw).
  destruct (py_mod_spec (86400 - now) (86400 * 7 * 31) eq_refl)
    as (Hm0 & Hm1 & km & Hm).
  repeat split; try lra.
  - exists (- kw)%Z. rewrite inject_Z_opp. lra.
  - exists (- km)%Z. rewrite inject_Z_opp. lra.
Qed.

(** ** A pass that finishes *)

(** X22: a round whose page is saved and is not a full page ends the pass
    over that stream: with only this stream in the working set,
    [scrape_all_channels]'s loop returns after this one round, the cursor is
    [None] afterwards and [previous_scan_time] is [int] of the clock reading
    taken after the save. *)
Theorem short_page_finishes_pass {S : Type} `{DataStoreLaws S}
    (converter : MessageConverter) (clock : nat -> Q) (self : Scraper)
    (c : Z) (channel : Channel) (cursor : option Z) (fuel i : nat)
    (st st1 : State S) :
  client self !! c = Some channel ->
  DataManager.get_frontier_message c st = (Ok cursor, st) ->
  Z.of_nat (length (history_oldest_first channel (limit self) cursor))
  <> limit self ->
  DataManager.save_messages converter
    (history_oldest_first channel (limit self) cursor) false st = (Ok tt, st1) ->
  exists st2,
    Scraper.scrape_loop converter clock self (Datatypes.S fuel) [c] i st
    = (Ok (Some tt), st2)
    /\ DataManager.get_frontier_message c st2 = (Ok None, st2)
    /\ previous_scan_time_of (get_frontier c (store st2))
       = PInt (py_int (clock (ticks st1))).
Proof.
  intros Hchannel Hcursor Hshort Hsave.
  assert (Scraper._scrape_channel converter self c st = (Ok true, st1)) as Hround.
  { unfold Scraper._scrape_channel. rewrite (bind_eval _ _ _ _ _ Hcursor).
    unfold Scraper.the_channel, lift, bind at 1. rewrite Hchannel.
    unfold Scraper._process_messages. rewrite (bind_eval _ _ _ _ _ Hsave).
    unfold ret. apply Z.eqb_neq in Hshort. rewrite Hshort.
    by rewrite orb_true_r. }
  destruct (finish_frontier_post clock c st1)
    as (st2 & Hfinish & _ & Hpst & Hnone & _).
  exists st2. split; [|done].
  cbn [Scraper.scrape_loop length]. rewrite Nat.mod_1_r.
  cbn [lookup list_lookup]. unfold bind at 1, lift.
  rewrite (bind_eval _ _ _ _ _ Hround), (bind_eval _ _ _ _ _ Hfinish).
  by destruct fuel.
Qed.

Lemma short_page_finishes_pass_witness :
  exists st2,
    Scraper.scrape_loop MongoMessageConverter.convert_message Scenario.clock
      (Scenario.scraper (List.map (Scenario.message 1) [1; 2; 3; 4]) 3)
      5 [1] 0 Scenario.A_mongo = (Ok (Some tt), st2)
    /\ DataManager.get_frontier_message 1 st2 = (Ok None, st2)
    /\ previous_scan_time_of (get_frontier 1 (store st2)) = PInt 1000.
Proof.
  edestruct (short_page_finishes_pass MongoMessageConverter.convert_message
               Scenario.clock
               (Scenario.scraper (List.map (Scenario.message 1) [1; 2; 3; 4]) 3)
               1 (Scenario.channel_of
                    (List.map (Scenario.message 1) [1; 2; 3; 4]))
               (Some 2) 4 0 Scenario.A_mongo)
    as (st2 & Hloop & Hnone & Hpst);
    [reflexivity | by vm_compute | by vm_compute | by vm_compute |].
  exists st2. split; [exact Hloop|]. split; [exact Hnone|].
  rewrite Hpst. reflexivity.
Defined.

(** ** MongoStore: saving again changes nothing *)

Lemma dict_set_same d k v : dict_lookup d k = Some v -> dict_set d k v = d.
Proof.
  induction d as [|[k0 v0] d IH]; cbn [dict_lookup dict_set]; [done|].
  destruct (String.eqb k0 k) eqn:E.
  - apply String.eqb_eq in E. by intros [= ->]; subst.
  - intros Hk. by rewrite IH.
Qed.

Lemma dict_update_same d d' :
  (forall k v, dict_lookup d' k = Some v -> dict_lookup d k = Some v) ->
  dict_update d d' = d.
Proof.
  intros Hsame. unfold dict_update.
  induction (List.map fst d') as [|k ks IH]; [done|].
  cbn [fold_left]. destruct (dict_lookup d' k) as [v|] eqn:Hk; [|exact IH].
  by rewrite (dict_set_same d k v (Hsame _ _ Hk)).
Qed.

Lemma update_one_same key v upd c d :
  Mongo.find_one key v c = Some d ->
  Mongo.apply_update upd false d = d ->
  Mongo.update_one key v upd c = c.
Proof.
  unfold Mongo.find_one. intros Hfind Hsame.
  induction c as [|x c IH]; [done|].
  cbn [List.find Mongo.update_one] in *.
  destruct (Mongo.doc_matches key v x).
  - injection Hfind as ->. by rewrite Hsame.
  - by rewrite IH.
Qed.

Lemma add_to_set_twice d field z :
  Mongo.add_to_set (Mongo.add_to_set d field (PInt z)) field (PInt z)
  = Mongo.add_to_set d field (PInt z).
Proof.
  remember (Mongo.add_to_set d field (PInt z)) as e eqn:He.
  unfold Mongo.add_to_set in He.
  destruct (dict_lookup d field) as [x|] eqn:Hd.
  - destruct x as [| | | |l|];
      try (subst e; unfold Mongo.add_to_set; by rewrite Hd).
    destruct (existsb (fun x => pyval_eqb x (PInt z)) l) eqn:Hl; subst e.
    + unfold Mongo.add_to_set. by rewrite Hd, Hl.
    + unfold Mongo.add_to_set. rewrite dict_lookup_set_eq.
      rewrite existsb_app. cbn [existsb]. rewrite pyval_eqb_int, Z.eqb_refl.
      by rewrite orb_true_r.
  - subst e. unfold Mongo.add_to_set. rewrite dict_lookup_set_eq.
    cbn [existsb]. by rewrite pyval_eqb_int, Z.eqb_refl.
Qed.

Lemma apply_update_add_reply child inserting d :
  Mongo.apply_update (add_reply child) inserting d
  = Mongo.add_to_set d "replies" (PInt child).
Proof. by destruct inserting. Qed.

(** X23: [MongoStore.save_messages] is idempotent on what
    [MongoMessageConverter] returns: saving the same updater a second time
    leaves the store exactly as the first save left it, and ends the same
    way (normally, or with the same exception). *)
Theorem save_messages_idempotent (message : MessageData)
    (thread : option Thread) (a a1 : gset Z) (u : pyval) (sm : MongoStore.t) :
  MongoMessageConverter.convert_message message thread a = (Ok u, a1) ->
  save_messages [u] (save_messages [u] sm).2 = save_messages [u] sm.
Proof.
  intros Hu.
  apply MongoMessageConverter_fields in Hu
    as (obj & -> & Hid & Hreply & Hcontent & Hprocessed & Hreplies & _).
  change (@save_messages MongoStore.t _) with MongoStore.save_messages.
  rewrite !(MongoStore_save_single message obj Hid Hreply).
  set (upd := MongoMessageConverter.update_document message obj).
  assert (Hkeeps : keeps_key "message_id" (PInt (id message)) upd)
    by by apply keeps_key_updater.
  (* a document that agrees with [obj] is left alone by the upsert *)
  assert (forall c d,
            Mongo.find_one "message_id" (PInt (id message)) c = Some d ->
            (forall k v, dict_lookup obj k = Some v -> dict_lookup d k = Some v) ->
            upserted message obj c = c) as Hfixed.
  { intros c d Hfind Hagree. unfold upserted.
    apply (update_one_same _ _ _ _ d Hfind).
    unfold upd, MongoMessageConverter.update_document.
    rewrite apply_update_updater. by apply dict_update_same. }
  (* after the first upsert the document agrees with [obj] *)
  set (c1 := upserted message obj (MongoStore.messages sm)).
  assert (exists d1,
            Mongo.find_one "message_id" (PInt (id message)) c1 = Some d1
            /\ forall k v, dict_lookup obj k = Some v ->
                           dict_lookup d1 k = Some v) as (d1 & Hd1 & Hagree1).
  { eexists. split.
    - unfold c1, upserted. rewrite find_one_update_one; [done|done|].
      rewrite pyval_eqb_int. apply Z.eqb_refl.
    - intros k v Hk. unfold MongoMessageConverter.update_document.
      destruct (Mongo.find_one _ _ (MongoStore.messages sm));
        rewrite apply_update_updater, !dict_lookup_update, ?Hk; [done|].
      cbn [dict_lookup].
      destruct (String.eqb "message_content" k) eqn:E1.
      { apply String.eqb_eq in E1. subst k. congruence. }
      destruct (String.eqb "processed" k) eqn:E2; [|done].
      apply String.eqb_eq in E2. subst k. congruence. }
  destruct (reference message) as [r|];
    [destruct (ref_message_id r) as [p|]|]; cbn [snd MongoStore.messages].
  - set (c2 := Mongo.update_one "message_id" (PInt p)
                 (add_reply (id message)) c1).
    destruct (find_one_after_reply (id message) p (id message) c1 d1 Hd1)
      as (d2 & Hd2 & Hsame2). fold c2 in Hd2.
    assert (upserted message obj c2 = c2) as ->.
    { apply (Hfixed c2 d2 Hd2). intros k v Hk. rewrite Hsame2; [by apply Hagree1|].
      intros ->. congruence. }
    assert (Mongo.update_one "message_id" (PInt p) (add_reply (id message)) c2
            = c2) as ->; [|done].
    assert (exists dp0,
              Mongo.find_one "message_id" (PInt p) c2
              = Some (Mongo.add_to_set dp0 "replies" (PInt (id message))))
      as (dp0 & Hp).
    { unfold c2. rewrite find_one_update_one.
      - destruct (Mongo.find_one "message_id" (PInt p) c1);
          rewrite apply_update_add_reply; eexists; reflexivity.
      - apply keeps_key_replies.
      - rewrite pyval_eqb_int. apply Z.eqb_refl. }
    apply (update_one_same _ _ _ _ _ Hp).
    rewrite apply_update_add_reply. apply add_to_set_twice.
  - by rewrite (Hfixed c1 d1 Hd1 Hagree1).
  - by rewrite (Hfixed c1 d1 Hd1 Hagree1).
Qed.

Lemma save_messages_idempotent_witness :
  let u := MongoMessageConverter.updater (data (Scenario.reply_to 1 6 1 5))
             (MongoMessageConverter.with_reference
                (data (Scenario.reply_to 1 6 1 5))
                (MongoMessageConverter.message_obj
                   (data (Scenario.reply_to 1 6 1 5)))) in
  save_messages [u] (save_messages [u] MongoStore.init).2
  = save_messages [u] MongoStore.init.
Proof.
  intros u.
  eapply (save_messages_idempotent (data (Scenario.reply_to 1 6 1 5)) None ∅).
  reflexivity.
Defined.

(** ** A batch of one message *)

Lemma save_messages_single {S : Type} `{!DataStore S} (converter : MessageConverter)
    (message : Message) (upd_frontier : bool) (st : State S) :
  (forall (r : pyval) (s : S), save_messages [r] s = save_message r s) ->
  is_thread_created message = false ->
  DataManager.save_messages converter [message] upd_frontier st
  = DataManager.save_message converter message upd_frontier st.
Proof.
  intros Hsingle Hplain.
  unfold DataManager.save_messages, DataManager.save_message.
  cbn [List.filter]. rewrite Hplain. cbn [negb mapM last].
  unfold bind, ret, lift, on_store.
  destruct (DataManager.convert_message converter message st)
    as [[r|e] st1]; [|done].
  rewrite Hsingle. by destruct (save_message r (store st1)) as [[[]|e] s2].
Qed.

(** X24: saving a batch that holds one ordinary message is the same as saving
    that message alone, with either store and any converter: same outcome,
    same store, same author set, whether or not the cursor is to be moved. *)
Theorem single_batch_is_save_message (converter : MessageConverter)
    (message : Message) (upd_frontier : bool) :
  is_thread_created message = false ->
  (forall st : State BasicStore.t,
     DataManager.save_messages converter [message] upd_frontier st
     = DataManager.save_message converter message upd_frontier st)
  /\ (forall st : State MongoStore.t,
        DataManager.save_messages converter [message] upd_frontier st
        = DataManager.save_message converter message upd_frontier st).
Proof.
  intros Hplain. split; intros st; by apply save_messages_single.
Qed.

Lemma single_batch_is_save_message_witness :
  DataManager.save_messages MongoMessageConverter.convert_message
    [Scenario.reply_to 1 6 1 5] true (Scenario.start MongoStore.init)
  = DataManager.save_message MongoMessageConverter.convert_message
      (Scenario.reply_to 1 6 1 5) true (Scenario.start MongoStore.init).
Proof.
  apply (single_batch_is_save_message MongoMessageConverter.convert_message
           (Scenario.reply_to 1 6 1 5) true).
  reflexivity.
Defined.
